(** * PostgresQueryPlanReader: the analysis functions of [app.py]

    A shallow embedding of [app.py] and the properties of its
    recommendation lists.

    Conventions of the embedding.
    - A Python [str] is a [string]; a character is a code point in 0..255.
      On that range [\d] is exactly [0-9], and [\w] and the white space of
      [str.strip] are the classes [is_word] and [is_space] below.
    - A Python [int] is an [N]: integers are unbounded. [int] of a string
      of digits raises [ValueError] for more than 4300 digits, the limit
      of the interpreter; a function that can raise returns an [option]
      or a [result].
    - A list of strings is a [list string], in the order of the [append]s.
    - [operator_costs] (lines 45-53) is a sum of floats that is never read
      again: it has no part in the returned list and is left out. *)

From Stdlib Require Import String Ascii List NArith Lia DecimalString.
From stdpp Require Import base gmap strings.
Import ListNotations.

Local Open Scope string_scope.
Local Open Scope list_scope.

(** ** Python's string operations *)

Module Str.

(** [s.startswith(p)], returning what follows the prefix. *)
Fixpoint drop_prefix (p s : string) : option string :=
  match p with
  | EmptyString => Some s
  | String a p' =>
      match s with
      | EmptyString => None
      | String b s' => if Ascii.eqb a b then drop_prefix p' s' else None
      end
  end.

Definition startswith (s p : string) : bool :=
  match drop_prefix p s with Some _ => true | None => false end.

(** [sub in s]: [sub] occurs at some position of [s]. *)
Fixpoint contains (sub s : string) : bool :=
  if startswith s sub then true
  else match s with
       | EmptyString => false
       | String _ s' => contains sub s'
       end.

(** [s.count(sub)]: occurrences found from left to right, the search
    resuming after each occurrence found ([skip] characters of the
    current occurrence are still to be passed). *)
Fixpoint count_from (sub s : string) (skip : nat) : nat :=
  match s with
  | EmptyString =>
      match skip with
      | O => if startswith s sub then 1 else 0
      | S _ => 0
      end
  | String _ s' =>
      match skip with
      | S k => count_from sub s' k
      | O =>
          if startswith s sub
          then S (count_from sub s' (String.length sub - 1))
          else count_from sub s' 0
      end
  end.

Definition count (s sub : string) : N := N.of_nat (count_from sub s 0).

(** Character classes of [re] on code points below 256. *)
Definition is_digit (c : ascii) : bool :=
  let n := N_of_ascii c in (48 <=? n)%N && (n <=? 57)%N.

Definition is_word (c : ascii) : bool :=
  let n := N_of_ascii c in
  ((48 <=? n) && (n <=? 57)          (* 0-9 *)
   || (65 <=? n) && (n <=? 90)       (* A-Z *)
   || (97 <=? n) && (n <=? 122)      (* a-z *)
   || (n =? 95)                      (* _ *)
   || (n =? 170) || (n =? 178) || (n =? 179) || (n =? 181)
   || (n =? 185) || (n =? 186)
   || (188 <=? n) && (n <=? 190)
   || (192 <=? n) && (n <=? 214)
   || (216 <=? n) && (n <=? 246)
   || (248 <=? n))%N.

(** White space of [str.strip] and [str.lstrip]. *)
Definition is_space (c : ascii) : bool :=
  let n := N_of_ascii c in
  ((9 <=? n) && (n <=? 13) || (28 <=? n) && (n <=? 32)
   || (n =? 133) || (n =? 160))%N.

Fixpoint take_while (cls : ascii -> bool) (s : string) : string :=
  match s with
  | EmptyString => EmptyString
  | String c s' => if cls c then String c (take_while cls s') else EmptyString
  end.

Fixpoint drop_while (cls : ascii -> bool) (s : string) : string :=
  match s with
  | EmptyString => EmptyString
  | String c s' => if cls c then drop_while cls s' else s
  end.

(** A match of the pattern [lit(\c+)] at the start of [s]: the text of the
    group, the longest non-empty run of the class after the literal. *)
Definition match_lit_class (lit : string) (cls : ascii -> bool) (s : string)
  : option string :=
  match drop_prefix lit s with
  | Some rest =>
      match take_while cls rest with
      | EmptyString => None
      | cap => Some cap
      end
  | None => None
  end.

(** [re.findall] for a pattern [lit(\c+)]: the groups of the matches found
    from left to right, the search resuming at the end of each match. *)
Fixpoint findall_from (lit : string) (cls : ascii -> bool) (s : string)
  (skip : nat) : list string :=
  match s with
  | EmptyString => []
  | String _ s' =>
      match skip with
      | S k => findall_from lit cls s' k
      | O =>
          match match_lit_class lit cls s with
          | Some cap =>
              cap :: findall_from lit cls s'
                       (String.length lit + String.length cap - 1)
          | None => findall_from lit cls s' 0
          end
      end
  end.

Definition findall (lit : string) (cls : ascii -> bool) (s : string)
  : list string :=
  findall_from lit cls s 0.

(** The digit that [c] writes. *)
Definition digit_value (c : ascii) : N := (N_of_ascii c - 48)%N.

Fixpoint int_acc (acc : N) (m : string) : N :=
  match m with
  | EmptyString => acc
  | String c m' => int_acc (10 * acc + digit_value c)%N m'
  end.

(** The number that the digits of [m] write. *)
Definition value (m : string) : N := int_acc 0 m.

(** The greatest of the numbers that [m] and the strings of [ms] write. *)
Definition max_value (m : string) (ms : list string) : N :=
  fold_left (fun acc x => N.max acc (value x)) ms (value m).

(** The interpreter converts no string of more digits to an integer
    ([sys.int_info.default_max_str_digits]); the zeros in front count. *)
Definition int_max_str_digits : nat := 4300.

(** [int(m)] for a string of digits [m]; [None] is the [ValueError] that
    [int] raises for a string of more than [int_max_str_digits] digits. *)
Definition int (m : string) : option N :=
  if (String.length m <=? int_max_str_digits)%nat then Some (value m)
  else None.

(** [max] over the rest of the generator, [acc] being the greatest so
    far. *)
Fixpoint max_from (acc : N) (ms : list string) : option N :=
  match ms with
  | [] => Some acc
  | x :: ms' =>
      match int x with
      | Some n => max_from (N.max acc n) ms'
      | None => None
      end
  end.

(** [max(int(match) for match in matches)] on a list with head [m]. *)
Definition max_int (m : string) (ms : list string) : option N :=
  match int m with
  | Some n => max_from n ms
  | None => None
  end.

(** [str(n)], as an f-string prints an integer. *)
Definition str (n : N) : string := NilZero.string_of_uint (N.to_uint n).

End Str.

(** ** [analyze_query] (lines 157-190) *)

Definition query_header : string := "### Query Analysis Recommendations".
Definition select_star_tip : string :=
  "- Avoid using `SELECT *`. Specify only the columns you need to reduce data transfer and improve performance.".
Definition join_tip : string :=
  "- Ensure that JOIN conditions are properly indexed to improve join performance.".
Definition join_on_tip : string :=
  "- Make sure to include `ON` conditions for JOINs to avoid Cartesian products.".
Definition where_tips : list string :=
  [ "- Review the WHERE clause to ensure it filters data efficiently.";
    "- Consider adding indexes on columns used in the WHERE clause to speed up filtering." ].
Definition group_by_tip : string :=
  "- Ensure that the columns in the GROUP BY clause are indexed if possible to improve aggregation performance.".
Definition order_by_tip : string :=
  "- If using ORDER BY, consider adding an index that matches the sort order to avoid in-memory sorting.".
Definition limit_tip : string :=
  "- Using `LIMIT` can improve performance by reducing the number of rows processed. Ensure it is used appropriately.".
Definition distinct_tip : string :=
  "- Using `DISTINCT` can be costly. Ensure it is necessary and consider if it can be avoided.".
Definition generic_tips : list string :=
  [ "- Regularly update statistics on your tables to help the query planner make informed decisions.";
    "- Use `EXPLAIN` to analyze the execution plan of your query and identify potential bottlenecks.";
    "- Consider breaking complex queries into smaller, simpler queries if performance issues arise." ].

(** [if cond: recommendations.append(...)]: the lines a guarded block adds. *)
Definition when (cond : bool) (lines : list string) : list string :=
  if cond then lines else [].

Definition analyze_query (query : string) : list string :=
  [query_header]
  ++ when (Str.contains "SELECT *" query) [select_star_tip]
  ++ when (Str.contains "JOIN" query)
       (join_tip :: when (negb (Str.contains "ON" query)) [join_on_tip])
  ++ when (Str.contains "WHERE" query) where_tips
  ++ when (Str.contains "GROUP BY" query) [group_by_tip]
  ++ when (Str.contains "ORDER BY" query) [order_by_tip]
  ++ when (Str.contains "LIMIT" query) [limit_tip]
  ++ when (Str.contains "DISTINCT" query) [distinct_tip]
  ++ generic_tips.

(** ** [analyze_query_plan] (lines 27-155) *)

(** The [operators] dictionary (lines 29-42), in the order of its keys. *)
Definition operators_init : list (string * list string) :=
  [ ("Seq Scan", []); ("Index Scan", []); ("Index Only Scan", []);
    ("Bitmap Heap Scan", []); ("Hash Join", []); ("Nested Loop", []);
    ("Merge Join", []); ("Sort", []); ("Aggregate", []);
    ("Materialize", []); ("Parallel", []); ("Rows Removed by Filter", []) ].

(** [operators[key].append(x)] *)
Fixpoint dict_append (key x : string) (d : list (string * list string))
  : list (string * list string) :=
  match d with
  | [] => []
  | (k, l) :: d' =>
      if String.eqb k key then (k, l ++ [x]) :: d'
      else (k, l) :: dict_append key x d'
  end.

(** [operators[key]] *)
Fixpoint dict_get (d : list (string * list string)) (key : string)
  : list string :=
  match d with
  | [] => []
  | (k, l) :: d' => if String.eqb k key then l else dict_get d' key
  end.

(** Lines 47-48, for any test [present] on the operator's name. *)
Definition visit_operator (present : string -> bool)
  (operators : list (string * list string)) (operator : string)
  : list (string * list string) :=
  if present operator then dict_append operator operator operators
  else operators.

(** Lines 46-48: every operator name that occurs in the plan is appended
    to its own entry. *)
Definition collect_operators (plan : string) : list (string * list string) :=
  fold_left (visit_operator (fun operator => Str.contains operator plan))
    (map fst operators_init) operators_init.

(** Truth value of a list: it is not empty. *)
Definition truthy (l : list string) : bool :=
  match l with [] => false | _ :: _ => true end.

Definition seq_scan_lines (table : string) : list string :=
  [ "Consider adding an index to table '" +:+ table +:+ "' to avoid sequential scans.";
    "- Sequential scans read every row in the table, which can be inefficient for large datasets.";
    "- They are useful when the entire table needs to be processed or when the table is small.";
    "- However, for larger tables, consider using indexes to speed up data retrieval.";
    "- Suggested Index: `CREATE INDEX idx_" +:+ table +:+ "_on_column ON " +:+ table +:+ " (column_name);`" ].

Definition index_scan_lines : list string :=
  [ "Index Scan detected. This is generally efficient, but consider:";
    "- Ensuring the index is selective enough to avoid scanning too many rows.";
    "- Analyzing the index usage to confirm it is being utilized effectively." ].

Definition index_only_scan_lines : list string :=
  [ "Index Only Scan detected. This is optimal as it avoids accessing the heap.";
    "- Ensure that the index covers all columns needed for the query to maximize efficiency.";
    "- Regularly update statistics to maintain index effectiveness." ].

Definition bitmap_heap_scan_lines : list string :=
  [ "Bitmap Heap Scan detected. While better than sequential scan, consider:";
    "- Creating a covering index to enable Index Only Scan";
    "- Reviewing the query to see if it can be optimized to use an Index Scan";
    "- Investigate the use of bitmap indexes if applicable.";
    "- Suggested Index: `CREATE INDEX idx_bitmap ON table_name (column_name);`" ].

Definition hash_join_header (max_buckets : N) : string :=
  "Large hash join detected (" +:+ Str.str max_buckets +:+ " buckets). Consider:".

Definition hash_join_lines (max_buckets : N) : list string :=
  [ hash_join_header max_buckets;
    "- Increasing work_mem (current buckets: " +:+ Str.str max_buckets +:+ ")";
    "- Reviewing join conditions to reduce the size of the hash table";
    "- Using an index-based join if possible";
    "- Analyze the distribution of data in the involved tables.";
    "- If the hash table exceeds the `work_mem` limit, it may spill to disk, processing data in batches, which can slow down execution. Consider increasing `work_mem` to allow hashing in a single batch for better performance. [Learn more](https://pganalyze.com/docs/explain/insights/hash-batches)" ].

Definition nested_loop_header (nested_loops : N) : string :=
  Str.str nested_loops +:+ " nested loops detected. Consider the following:".

Definition nested_loop_lines (nested_loops : N) : list string :=
  [ nested_loop_header nested_loops;
    "- Use JOIN clauses instead of subqueries where possible";
    "- Ensure proper indexing on join columns";
    "- Review query structure to minimize nested operations";
    "- Investigate the possibility of rewriting the query to reduce complexity." ].

Definition merge_join_lines : list string :=
  [ "Merge Join detected. This is efficient for sorted data, but consider:";
    "- Ensuring that the input data is sorted to avoid additional sorting overhead.";
    "- Reviewing the join conditions to confirm they are optimal for merge joins." ].

Definition sort_lines : list string :=
  [ "Sort operation detected. Consider:";
    "- Adding an index that matches the sort order to avoid in-memory sorting.";
    "- Analyzing the data distribution to determine if sorting can be optimized." ].

Definition aggregate_lines : list string :=
  [ "Aggregate operation detected. Consider:";
    "- Ensuring that the aggregation is performed on indexed columns to improve performance.";
    "- Reviewing the query to see if it can be simplified to reduce the number of rows processed." ].

Definition materialize_lines : list string :=
  [ "Materialization detected. Consider:";
    "- Reviewing subqueries to see if they can be simplified or eliminated";
    "- Increasing work_mem to allow larger operations in memory";
    "- Evaluate if the materialized results can be cached for repeated queries." ].

Definition no_parallel_header : string :=
  "No parallel operations detected. Consider:".

Definition no_parallel_lines : list string :=
  [ no_parallel_header;
    "- Increasing max_parallel_workers_per_gather";
    "- Ensuring tables are large enough to benefit from parallelism";
    "- Reviewing queries to allow for parallelization";
    "- Consider using parallel query execution for large datasets.";
    "- Parallel operations can significantly improve performance for large queries by utilizing multiple CPU cores." ].

Definition rows_removed_header (max_removed : N) : string :=
  "High number of rows removed by filter (" +:+ Str.str max_removed +:+ "). Consider:".

Definition rows_removed_lines (max_removed : N) : list string :=
  [ rows_removed_header max_removed;
    "- Adding indexes to support the filter conditions";
    "- Reviewing data distribution and updating statistics";
    "- Rewriting the query to filter data earlier in the plan";
    "- Analyze the filter conditions to ensure they are selective enough." ].

(** [re.findall(r"Seq Scan on (\w+)", plan)] *)
Definition seq_scan_tables (plan : string) : list string :=
  Str.findall "Seq Scan on " Str.is_word plan.

(** [re.findall(r"buckets=(\d+)", plan)] *)
Definition bucket_matches (plan : string) : list string :=
  Str.findall "buckets=" Str.is_digit plan.

(** [re.findall(r"Rows Removed by Filter: (\d+)", plan)] *)
Definition filter_matches (plan : string) : list string :=
  Str.findall "Rows Removed by Filter: " Str.is_digit plan.

(** [plan.count("Nested Loop")] *)
Definition nested_loops (plan : string) : N := Str.count plan "Nested Loop".

(** Lines 87-97: [if matches:] and the threshold on the greatest count.
    [None]: an [int(match)] of line 90 has raised [ValueError]. *)
Definition hash_join_block (plan : string) : option (list string) :=
  match bucket_matches plan with
  | [] => Some []
  | m :: ms =>
      match Str.max_int m ms with
      | Some max_buckets =>
          Some (when (100000 <? max_buckets)%N (hash_join_lines max_buckets))
      | None => None
      end
  end.

(** Lines 101-107. *)
Definition nested_loop_block (plan : string) : list string :=
  when (2 <? nested_loops plan)%N (nested_loop_lines (nested_loops plan)).

(** Lines 144-153. [None]: an [int(match)] of line 147 has raised
    [ValueError]. *)
Definition rows_removed_block (plan : string) : option (list string) :=
  match filter_matches plan with
  | [] => Some []
  | m :: ms =>
      match Str.max_int m ms with
      | Some max_removed =>
          Some (when (10000 <? max_removed)%N (rows_removed_lines max_removed))
      | None => None
      end
  end.

(** The function returns the list, or raises the [ValueError] of an
    [int(match)]: [None]. Nothing else in it can raise. *)
Definition analyze_query_plan (plan : string) : option (list string) :=
  let operators := collect_operators plan in
  match (if truthy (dict_get operators "Hash Join")
         then hash_join_block plan else Some []) with
  | None => None
  | Some hash_join =>
      match rows_removed_block plan with
      | None => None
      | Some rows_removed =>
          Some
            (when (truthy (dict_get operators "Seq Scan"))
               (flat_map seq_scan_lines (seq_scan_tables plan))
             ++ when (truthy (dict_get operators "Index Scan")) index_scan_lines
             ++ when (truthy (dict_get operators "Index Only Scan"))
                  index_only_scan_lines
             ++ when (truthy (dict_get operators "Bitmap Heap Scan"))
                  bitmap_heap_scan_lines
             ++ hash_join
             ++ when (truthy (dict_get operators "Nested Loop"))
                  (nested_loop_block plan)
             ++ when (truthy (dict_get operators "Merge Join")) merge_join_lines
             ++ when (truthy (dict_get operators "Sort")) sort_lines
             ++ when (truthy (dict_get operators "Aggregate")) aggregate_lines
             ++ when (truthy (dict_get operators "Materialize"))
                  materialize_lines
             ++ when (negb (Str.contains "Parallel" plan)) no_parallel_lines
             ++ rows_removed)
      end
  end.

(** ** [parse_query_plan] (lines 6-25)

    The nodes are dictionaries that are still appended to after they have
    been put on the stack and into their parent's [children]: the model
    keeps them in a store, a node being the address of its entry. *)

Module Parser.

(** [plan.split('\n')] *)
Fixpoint split_lines (s : string) : list string :=
  match s with
  | EmptyString => [EmptyString]
  | String c s' =>
      if Ascii.eqb c "010"%char then EmptyString :: split_lines s'
      else match split_lines s' with
           | l :: ls => String c l :: ls
           | [] => [String c EmptyString]
           end
  end.

Definition lstrip (s : string) : string := Str.drop_while Str.is_space s.

Fixpoint rstrip (s : string) : string :=
  match s with
  | EmptyString => EmptyString
  | String c s' =>
      match rstrip s' with
      | EmptyString => if Str.is_space c then EmptyString else String c EmptyString
      | r => String c r
      end
  end.

Definition strip (s : string) : string := rstrip (lstrip s).

(** The tree a node of the store stands for. *)
#[warnings="-register-all"]
Inductive node : Type :=
  Node (name : string) (children : list node).

Record state : Type := mkState {
  store : list (string * list nat);  (* name and children of each node *)
  stack : list (nat * nat);          (* level and node, the top first *)
  root : option nat
}.

(** Lines 15-16: [while stack and stack[-1]['level'] >= level: stack.pop()] *)
Fixpoint pop_levels (level : nat) (stack : list (nat * nat)) : list (nat * nat) :=
  match stack with
  | [] => []
  | (l, a) :: stack' => if (level <=? l)%nat then pop_levels level stack' else stack
  end.

(** The body of the loop, lines 12-23. *)
Definition step (st : state) (line : string) : state :=
  let level := String.length line - String.length (lstrip line) in
  let node := length (store st) in
  let store1 := store st ++ [(strip line, [])] in
  let stack1 := pop_levels level (stack st) in
  match stack1 with
  | (_, parent) :: _ =>
      mkState (alter (fun e => (e.1, e.2 ++ [node])) parent store1)
              ((level, node) :: stack1) (root st)
  | [] => mkState store1 ((level, node) :: stack1) (Some node)
  end.

Definition run (plan : string) : state :=
  fold_left step (split_lines (strip plan)) (mkState [] [] None).

(** The dictionary at an address, read with its children. *)
Fixpoint read (fuel : nat) (store : list (string * list nat)) (a : nat)
  : option node :=
  match fuel with
  | O => None
  | S fuel' =>
      match store !! a with
      | Some (name, children) =>
          match mapM (read fuel' store) children with
          | Some cs => Some (Node name cs)
          | None => None
          end
      | None => None
      end
  end.

End Parser.

(** [None] stands for Python's [None]. *)
Definition parse_query_plan (plan : string) : option Parser.node :=
  let st := Parser.run plan in
  match Parser.root st with
  | Some a => Parser.read (length (Parser.store st)) (Parser.store st) a
  | None => None
  end.

(** ** The request handler [index] (lines 192-243)

    The names [analyze_query_plan] and [analyze_query] in the body of
    [index] are looked up in the module's global names when the handler
    runs. The bodies of the three functions above name no function of the
    module: they are closed. *)

Module Web.

Inductive method : Type := GET | POST.

Record request : Type := mkRequest {
  req_method : method;
  form : gmap string string
}.

Inductive error : Type :=
  | BadRequestKeyError (key : string)   (* [request.form[key]], no such field *)
  | NameError (name : string)           (* a global name that is not bound *)
  | TypeError                           (* [extend] with what cannot be iterated *)
  | ValueError.                         (* [int] of too long a string of digits *)

(** What the template is rendered with. *)
Record page : Type := mkPage {
  recommendations : list string;
  query_plan : string;
  query : string
}.

Definition result (A : Type) : Type := error + A.

Definition bind {A B : Type} (r : result A) (k : A -> result B) : result B :=
  match r with
  | inl e => inl e
  | inr a => k a
  end.

Notation "'do' x <- r ; k" := (bind r (fun x => k))
  (at level 10, x name, r at level 100, k at level 200).

Definition ok {A : Type} (a : A) : result A := inr a.

(** The functions [def] binds in the module. *)
Inductive pyfunc : Type :=
  | Fn_parse_query_plan
  | Fn_analyze_query_plan
  | Fn_analyze_query.

Inductive value : Type :=
  | VList (l : list string)
  | VDict (n : Parser.node)
  | VNone.

Definition call (f : pyfunc) (arg : string) : result value :=
  match f with
  | Fn_parse_query_plan =>
      match parse_query_plan arg with
      | Some n => ok (VDict n)
      | None => ok VNone
      end
  | Fn_analyze_query_plan =>
      match analyze_query_plan arg with
      | Some l => ok (VList l)
      | None => inl ValueError
      end
  | Fn_analyze_query => ok (VList (analyze_query arg))
  end.

(** The global names after the module has been loaded. *)
Definition module_globals : gmap string pyfunc :=
  <["analyze_query" := Fn_analyze_query]>
    (<["analyze_query_plan" := Fn_analyze_query_plan]>
       (<["parse_query_plan" := Fn_parse_query_plan]> ∅)).

Definition lookup_global (g : gmap string pyfunc) (name : string)
  : result pyfunc :=
  match g !! name with
  | Some f => ok f
  | None => inl (NameError name)
  end.

(** [request.form[key]] *)
Definition form_get (r : request) (key : string) : result string :=
  match form r !! key with
  | Some v => ok v
  | None => inl (BadRequestKeyError key)
  end.

(** [recommendations.extend(v)]; a dictionary is iterated by its keys. *)
Definition extend (recs : list string) (v : value) : result (list string) :=
  match v with
  | VList l => ok (recs ++ l)
  | VDict _ => ok (recs ++ ["name"; "children"])
  | VNone => inl TypeError
  end.

(** [if query:] *)
Definition nonempty (s : string) : bool :=
  match s with EmptyString => false | String _ _ => true end.

Definition index_in (g : gmap string pyfunc) (r : request) : result page :=
  match req_method r with
  | GET => ok (mkPage [] "" "")
  | POST =>
      do query_plan <- form_get r "query_plan";
      do query <- form_get r "query";
      do f <- lookup_global g "analyze_query_plan";
      do v <- call f query_plan;
      do recs <- extend [] v;
      if nonempty query then
        do f' <- lookup_global g "analyze_query";
        do v' <- call f' query;
        do recs' <- extend recs v';
        ok (mkPage recs' query_plan query)
      else ok (mkPage recs query_plan query)
  end.

Definition index (r : request) : result page := index_in module_globals r.

(** A POST request with the two fields of the form. *)
Definition post (plan q : string) : request :=
  mkRequest POST (<["query" := q]> (<["query_plan" := plan]> ∅)).

End Web.

(** ** Notions the properties are stated with *)

(** The lines that [hash_join_block] gives when it gives any: those for
    the greatest of the numbers that the matches write. *)
Definition hash_join_warning (plan : string) : list string :=
  match bucket_matches plan with
  | [] => []
  | m :: ms =>
      let max_buckets := Str.max_value m ms in
      when (100000 <? max_buckets)%N (hash_join_lines max_buckets)
  end.

(** The lines that [rows_removed_block] gives when it gives any. *)
Definition rows_removed_warning (plan : string) : list string :=
  match filter_matches plan with
  | [] => []
  | m :: ms =>
      let max_removed := Str.max_value m ms in
      when (10000 <? max_removed)%N (rows_removed_lines max_removed)
  end.

(** The list that the body of the function builds when no [int(match)]
    raises. *)
Definition recommendations_of (plan : string) : list string :=
  let operators := collect_operators plan in
  when (truthy (dict_get operators "Seq Scan"))
    (flat_map seq_scan_lines (seq_scan_tables plan))
  ++ when (truthy (dict_get operators "Index Scan")) index_scan_lines
  ++ when (truthy (dict_get operators "Index Only Scan")) index_only_scan_lines
  ++ when (truthy (dict_get operators "Bitmap Heap Scan")) bitmap_heap_scan_lines
  ++ when (truthy (dict_get operators "Hash Join")) (hash_join_warning plan)
  ++ when (truthy (dict_get operators "Nested Loop")) (nested_loop_block plan)
  ++ when (truthy (dict_get operators "Merge Join")) merge_join_lines
  ++ when (truthy (dict_get operators "Sort")) sort_lines
  ++ when (truthy (dict_get operators "Aggregate")) aggregate_lines
  ++ when (truthy (dict_get operators "Materialize")) materialize_lines
  ++ when (negb (Str.contains "Parallel" plan)) no_parallel_lines
  ++ rows_removed_warning plan.

(** The string of [n] times the character [c]. *)
Fixpoint run (c : ascii) (n : nat) : string :=
  match n with
  | O => EmptyString
  | S k => String c (run c k)
  end.

(** [int] converts the match. *)
Definition convertible (m : string) : bool :=
  (String.length m <=? Str.int_max_str_digits)%nat.

(** Every [int(match)] that the function runs on the plan succeeds: no
    match of [Rows Removed by Filter: (\d+)] has more than 4300 digits,
    and none of [buckets=(\d+)] when the plan contains "Hash Join". *)
Definition within_limit (plan : string) : bool :=
  (negb (Str.contains "Hash Join" plan)
   || forallb convertible (bucket_matches plan))
  && forallb convertible (filter_matches plan).

(** The number of positions of [s] at which [sub] occurs: the occurrences
    of a substring, counted one by one whether or not they overlap. *)
Fixpoint occurrences (sub s : string) : nat :=
  (if Str.startswith s sub then 1 else 0)
  + match s with
    | EmptyString => 0
    | String _ s' => occurrences sub s'
    end.

(** None of the first [k] positions of [s] starts an occurrence of [sub]. *)
Fixpoint no_occurrence (sub : string) (k : nat) (s : string) : bool :=
  match k, s with
  | S k', String _ s' =>
      negb (Str.startswith s sub) && no_occurrence sub k' s'
  | _, _ => true
  end.

(** None of the first [k] characters of [s] is [c0]. *)
Fixpoint free_of (c0 : ascii) (k : nat) (s : string) : bool :=
  match k, s with
  | S k', String c s' => negb (Ascii.eqb c c0) && free_of c0 k' s'
  | _, _ => true
  end.

Fixpoint all_class (cls : ascii -> bool) (s : string) : bool :=
  match s with
  | EmptyString => true
  | String c s' => cls c && all_class cls s'
  end.

(** The greatest of the counts that a pattern extracted, if it extracted
    any. *)
Definition greatest (matches : list string) : option N :=
  match matches with
  | [] => None
  | m :: ms => Some (Str.max_value m ms)
  end.

(** [pre] ends inside a match of [Seq Scan on (\w+)] that could still go
    on: one of its suffixes is "Seq Scan on " followed by word characters
    only. *)
Fixpoint open_table_match (pre : string) : bool :=
  match pre with
  | EmptyString => false
  | String _ pre' =>
      match Str.drop_prefix "Seq Scan on " pre with
      | Some w => all_class Str.is_word w
      | None => false
      end
      || open_table_match pre'
  end.

(** [post] does not go on with a word character. *)
Definition word_ends (post : string) : bool :=
  match post with
  | EmptyString => true
  | String c _ => negb (Str.is_word c)
  end.

(** First character of a line. *)
Definition first_char (line : string) : option ascii :=
  match line with
  | EmptyString => None
  | String c _ => Some c
  end.

(** The lines that state no count start with one of these characters. *)
Definition plain_head (line : string) : bool :=
  match line with
  | EmptyString => false
  | String c _ =>
      existsb (Ascii.eqb c)
        (list_ascii_of_string "C-IBMSAN")
  end.

(** The warnings with a count, whatever the count. *)
Definition hash_join_warned (recs : list string) : Prop :=
  exists n : N, In (hash_join_header n) recs.

Definition rows_removed_warned (recs : list string) : Prop :=
  exists n : N, In (rows_removed_header n) recs.

Definition nested_loop_warned (recs : list string) : Prop :=
  exists n : N, In (nested_loop_header n) recs.

(** What holds of the parser's state after every line: the children of a
    node are nodes made after it, and the stack and the root hold nodes of
    the store. *)
Definition parser_invariant (st : Parser.state) : Prop :=
  (forall (a : nat) (name : string) (children : list nat),
     Parser.store st !! a = Some (name, children) ->
     Forall (fun k => a < k < length (Parser.store st)) children)
  /\ Forall (fun e => e.2 < length (Parser.store st)) (Parser.stack st)
  /\ match Parser.root st with
     | Some a => a < length (Parser.store st)
     | None => Parser.stack st = []
     end.

(** ** The loop of the template (lines 233-239) *)

Module Template.

(** [recommendation.startswith('- ')] *)
Definition is_sub (recommendation : string) : bool :=
  Str.startswith recommendation "- ".

(** The class of the [div] a line is put in. *)
Definition css_class (recommendation : string) : string :=
  if is_sub recommendation then "sub-recommendation" else "recommendation".

(** The [div]s of the list, each with its class and its text. *)
Definition render (recommendations : list string) : list (string * string) :=
  map (fun recommendation => (css_class recommendation, recommendation))
    recommendations.

End Template.

(** ** Further notions *)

(** Some character of [s] is in the class. *)
Fixpoint has_char (cls : ascii -> bool) (s : string) : bool :=
  match s with
  | EmptyString => false
  | String c s' => cls c || has_char cls s'
  end.

Definition is_upper (c : ascii) : bool :=
  let n := N_of_ascii c in (65 <=? n)%N && (n <=? 90)%N.

(** No string is twice in the list. *)
Fixpoint distinct (l : list string) : bool :=
  match l with
  | [] => true
  | x :: l' => negb (existsb (String.eqb x) l') && distinct l'
  end.

(** A page of cards: every line of class [recommendation] is followed by
    two or more lines of class [sub-recommendation], and no such line
    comes first. *)
Inductive cards : list string -> Prop :=
  | cards_nil : cards []
  | cards_cons (k : nat) (rest : list string) :
      2 <= k -> cards rest ->
      cards ("recommendation" :: repeat "sub-recommendation" k ++ rest).

(** ** What the parser is to build *)

(** [len(line) - len(line.lstrip())] *)
Definition indent (line : string) : nat :=
  String.length line - String.length (Parser.lstrip line).

(** [plan.strip().split('\n')] *)
Definition plan_lines (plan : string) : list string :=
  Parser.split_lines (Parser.strip plan).

(** The nearest of the lines before line [j] with a level below [L]. *)
Fixpoint nearest_below (L : nat) (levels : list nat) (j : nat) : option nat :=
  match j with
  | O => None
  | S i =>
      match levels !! i with
      | Some l => if (l <? L)%nat then Some i else nearest_below L levels i
      | None => nearest_below L levels i
      end
  end.

(** The parent of line [j]: the nearest line before it that is indented
    less, if there is one. *)
Definition parent_of (levels : list nat) (j : nat) : option nat :=
  match levels !! j with
  | Some L => nearest_below L levels j
  | None => None
  end.

Definition is_child (levels : list nat) (i j : nat) : bool :=
  match parent_of levels j with
  | Some p => Nat.eqb p i
  | None => false
  end.

(** The lines with parent [i], in their order. *)
Definition children_of (levels : list nat) (i : nat) : list nat :=
  List.filter (is_child levels i) (seq 0 (length levels)).

Definition is_top (levels : list nat) (j : nat) : bool :=
  match parent_of levels j with
  | Some _ => false
  | None => true
  end.

(** The lines without a parent, in their order. *)
Definition top_lines (levels : list nat) : list nat :=
  List.filter (is_top levels) (seq 0 (length levels)).

(** The store in which node [i] has the name of line [i] and its children
    are the lines with parent [i]. *)
Definition expected_store (lines : list string) : list (string * list nat) :=
  imap (fun i line => (Parser.strip line, children_of (map indent lines) i))
    lines.

(** A stack that holds a line, its parent, the parent of its parent and so
    on. *)
Fixpoint linked (levels : list nat) (stack : list (nat * nat)) : Prop :=
  match stack with
  | [] => True
  | (l, a) :: rest =>
      levels !! a = Some l
      /\ parent_of levels a = snd <$> head rest
      /\ linked levels rest
  end.

(** The state of the parser after the lines [lines]. *)
Definition parser_tracks (lines : list string) (st : Parser.state) : Prop :=
  Parser.store st = expected_store lines
  /\ linked (map indent lines) (Parser.stack st)
  /\ snd <$> head (Parser.stack st)
     = match lines with [] => None | _ :: _ => Some (length lines - 1) end
  /\ Parser.root st = last (top_lines (map indent lines)).

Definition node_name (n : Parser.node) : string :=
  match n with Parser.Node name _ => name end.

Definition node_children (n : Parser.node) : list Parser.node :=
  match n with Parser.Node _ children => children end.

(** ** Facts on the string operations *)

#[local] Arguments String.append _ _ : simpl nomatch.

Lemma append_assoc (a b c : string) : (a +:+ b) +:+ c = a +:+ (b +:+ c).
Proof. induction a as [|x a IH]; simpl; [reflexivity | now f_equal]. Qed.

Lemma length_append (a b : string) :
  String.length (a +:+ b) = String.length a + String.length b.
Proof. induction a as [|x a IH]; simpl; [reflexivity | now f_equal]. Qed.

Lemma drop_prefix_append (p r : string) : Str.drop_prefix p (p +:+ r) = Some r.
Proof.
  induction p as [|a p IH]; simpl; [reflexivity|].
  now rewrite Ascii.eqb_refl.
Qed.

Lemma drop_prefix_Some (p s r : string) :
  Str.drop_prefix p s = Some r -> s = p +:+ r.
Proof.
  revert s; induction p as [|a p IH]; intros s H; simpl in *.
  - now inversion H.
  - destruct s as [|b s]; [discriminate|].
    destruct (Ascii.eqb_spec a b) as [->|]; [|discriminate].
    now rewrite (IH _ H).
Qed.

Lemma startswith_append (p r : string) : Str.startswith (p +:+ r) p = true.
Proof. unfold Str.startswith. now rewrite drop_prefix_append. Qed.

Lemma contains_startswith (sub s : string) :
  Str.startswith s sub = true -> Str.contains sub s = true.
Proof. intros H. destruct s; simpl; now rewrite H. Qed.

Lemma contains_tail (sub : string) (c : ascii) (s : string) :
  Str.contains sub s = true -> Str.contains sub (String c s) = true.
Proof. intros H. simpl. rewrite H. now destruct (Str.startswith _ _). Qed.

Lemma contains_append (sub pre s : string) :
  Str.contains sub s = true -> Str.contains sub (pre +:+ s) = true.
Proof.
  intros H. induction pre as [|c pre IH]; [exact H|].
  now apply contains_tail.
Qed.

Lemma contains_occurrence (sub pre post : string) :
  Str.contains sub (pre +:+ sub +:+ post) = true.
Proof. apply contains_append, contains_startswith, startswith_append. Qed.

Lemma contains_split (sub s : string) :
  Str.contains sub s = true -> exists pre post, s = pre +:+ sub +:+ post.
Proof.
  induction s as [|c s IH]; simpl; unfold Str.startswith.
  - destruct (Str.drop_prefix sub "") as [r|] eqn:E; [|discriminate].
    intros _. exists "", r. simpl. now apply drop_prefix_Some.
  - destruct (Str.drop_prefix sub (String c s)) as [r|] eqn:E.
    + intros _. exists "", r. simpl. now apply drop_prefix_Some.
    + intros H. destruct (IH H) as (pre & post & ->).
      now exists (String c pre), post.
Qed.

(** ** Guarded blocks and the [operators] dictionary *)

Lemma in_when (x : string) (b : bool) (l : list string) :
  In x (when b l) <-> b = true /\ In x l.
Proof. destruct b; simpl; intuition congruence. Qed.

Lemma dict_get_append_ne (key x k : string) (d : list (string * list string)) :
  key <> k -> dict_get (dict_append key x d) k = dict_get d k.
Proof.
  intros Hne. induction d as [|[k0 l] d IH]; simpl; [reflexivity|].
  destruct (String.eqb_spec k0 key) as [->|]; simpl.
  - destruct (String.eqb_spec key k); [contradiction | reflexivity].
  - now rewrite IH.
Qed.

Lemma dict_get_append_eq (key x : string) (d : list (string * list string)) :
  In key (map fst d) -> dict_get (dict_append key x d) key = dict_get d key ++ [x].
Proof.
  induction d as [|[k0 l] d IH]; simpl; [intros []|].
  intros H. destruct (String.eqb_spec k0 key) as [->|Hne]; simpl.
  - now rewrite String.eqb_refl.
  - destruct (String.eqb_spec k0 key); [contradiction|].
    apply IH. now destruct H.
Qed.

Lemma dict_keys_append (key x : string) (d : list (string * list string)) :
  map fst (dict_append key x d) = map fst d.
Proof.
  induction d as [|[k0 l] d IH]; simpl; [reflexivity|].
  destruct (String.eqb k0 key); simpl; [reflexivity | now rewrite IH].
Qed.

Lemma dict_get_visit_all (present : string -> bool) (keys : list string) :
  forall d k,
    List.NoDup keys -> incl keys (map fst d) ->
    dict_get (fold_left (visit_operator present) keys d) k
    = if existsb (String.eqb k) keys && present k
      then dict_get d k ++ [k] else dict_get d k.
Proof.
  induction keys as [|key keys IH]; intros d k Hnd Hin; [reflexivity|].
  inversion Hnd as [|? ? Hnotin Hnd']; subst.
  cbn [fold_left existsb]. rewrite IH; [|assumption|].
  - unfold visit_operator.
    destruct (String.eqb_spec k key) as [->|Hne]; simpl.
    + assert (existsb (String.eqb key) keys = false) as ->.
      { apply Bool.not_true_is_false. intros E.
        apply existsb_exists in E as (y & Hy & E).
        apply String.eqb_eq in E. now subst. }
      simpl. destruct (present key); [|reflexivity].
      apply dict_get_append_eq, Hin. now left.
    + destruct (present key); [|reflexivity].
      now rewrite dict_get_append_ne by congruence.
  - unfold visit_operator. destruct (present key);
      [rewrite dict_keys_append|]; intros y Hy; apply Hin; now right.
Qed.

Lemma truthy_collect (plan k : string) :
  existsb (String.eqb k) (map fst operators_init) = true ->
  truthy (dict_get (collect_operators plan) k) = Str.contains k plan.
Proof.
  intros Hk. unfold collect_operators.
  rewrite dict_get_visit_all.
  - rewrite Hk. simpl andb.
    assert (dict_get operators_init k = []) as ->.
    { clear Hk. simpl.
      repeat match goal with
             | |- (if ?b then _ else _) = _ => destruct b; [reflexivity|]
             end.
      reflexivity. }
    now destruct (Str.contains k plan).
  - simpl. repeat constructor; simpl; intuition discriminate.
  - apply incl_refl.
Qed.

(** The list that is built, with the tests on [operators] read as tests on
    the plan. *)
Lemma analyze_query_plan_blocks (plan : string) :
  recommendations_of plan
  = when (Str.contains "Seq Scan" plan)
      (flat_map seq_scan_lines (seq_scan_tables plan))
    ++ when (Str.contains "Index Scan" plan) index_scan_lines
    ++ when (Str.contains "Index Only Scan" plan) index_only_scan_lines
    ++ when (Str.contains "Bitmap Heap Scan" plan) bitmap_heap_scan_lines
    ++ when (Str.contains "Hash Join" plan) (hash_join_warning plan)
    ++ when (Str.contains "Nested Loop" plan) (nested_loop_block plan)
    ++ when (Str.contains "Merge Join" plan) merge_join_lines
    ++ when (Str.contains "Sort" plan) sort_lines
    ++ when (Str.contains "Aggregate" plan) aggregate_lines
    ++ when (Str.contains "Materialize" plan) materialize_lines
    ++ when (negb (Str.contains "Parallel" plan)) no_parallel_lines
    ++ rows_removed_warning plan.
Proof.
  unfold recommendations_of.
  now rewrite !truthy_collect by reflexivity.
Qed.

(** ** When [int] raises *)

Lemma max_from_spec (ms : list string) (acc : N) :
  Str.max_from acc ms
  = if forallb convertible ms
    then Some (fold_left (fun a x => N.max a (Str.value x)) ms acc)
    else None.
Proof.
  revert acc; induction ms as [|x ms IH]; intros acc; [reflexivity|].
  cbn [Str.max_from forallb fold_left]. unfold Str.int. fold (convertible x).
  destruct (convertible x); [apply IH | reflexivity].
Qed.

Lemma max_int_spec (m : string) (ms : list string) :
  Str.max_int m ms
  = if forallb convertible (m :: ms) then Some (Str.max_value m ms) else None.
Proof.
  unfold Str.max_int, Str.int. fold (convertible m). cbn [forallb].
  destruct (convertible m); [apply max_from_spec | reflexivity].
Qed.

Lemma hash_join_block_spec (plan : string) :
  hash_join_block plan
  = if forallb convertible (bucket_matches plan)
    then Some (hash_join_warning plan) else None.
Proof.
  unfold hash_join_block, hash_join_warning.
  destruct (bucket_matches plan) as [|m ms]; [reflexivity|].
  rewrite max_int_spec. now destruct (forallb convertible (m :: ms)).
Qed.

Lemma rows_removed_block_spec (plan : string) :
  rows_removed_block plan
  = if forallb convertible (filter_matches plan)
    then Some (rows_removed_warning plan) else None.
Proof.
  unfold rows_removed_block, rows_removed_warning.
  destruct (filter_matches plan) as [|m ms]; [reflexivity|].
  rewrite max_int_spec. now destruct (forallb convertible (m :: ms)).
Qed.

(** The function returns its list exactly when every [int(match)] it runs
    succeeds. *)
Lemma analyze_query_plan_spec (plan : string) :
  analyze_query_plan plan
  = if within_limit plan then Some (recommendations_of plan) else None.
Proof.
  unfold analyze_query_plan, recommendations_of, within_limit.
  rewrite !truthy_collect by reflexivity.
  rewrite hash_join_block_spec, rows_removed_block_spec.
  destruct (Str.contains "Hash Join" plan);
    destruct (forallb convertible (bucket_matches plan));
    destruct (forallb convertible (filter_matches plan)); reflexivity.
Qed.

Lemma analyze_query_plan_Some (plan : string) (recs : list string) :
  analyze_query_plan plan = Some recs ->
  within_limit plan = true /\ recs = recommendations_of plan.
Proof.
  rewrite analyze_query_plan_spec.
  destruct (within_limit plan); [|discriminate]. now intros [= <-].
Qed.

Lemma analyze_query_plan_within (plan : string) :
  within_limit plan = true ->
  analyze_query_plan plan = Some (recommendations_of plan).
Proof. intros H. now rewrite analyze_query_plan_spec, H. Qed.

(** ** [analyze_query] *)

Lemma analyze_query_select_star_count (query : string) :
  count_occ string_dec (analyze_query query) select_star_tip
  = if Str.contains "SELECT *" query then 1 else 0.
Proof.
  unfold analyze_query.
  generalize (Str.contains "SELECT *" query), (Str.contains "JOIN" query),
    (Str.contains "ON" query), (Str.contains "WHERE" query),
    (Str.contains "GROUP BY" query), (Str.contains "ORDER BY" query),
    (Str.contains "LIMIT" query), (Str.contains "DISTINCT" query).
  intros [] [] [] [] [] [] [] []; vm_compute; reflexivity.
Qed.

(** C7: the [SELECT *] tip is in the list of [analyze_query] exactly once
    when the query contains "SELECT *", and not at all when it does not. *)
Theorem select_star_tip_exactly_once (query : string) :
  (Str.contains "SELECT *" query = true ->
   count_occ string_dec (analyze_query query) select_star_tip = 1)
  /\ (Str.contains "SELECT *" query = false ->
      ~ In select_star_tip (analyze_query query)).
Proof.
  split; intros H.
  - now rewrite analyze_query_select_star_count, H.
  - apply (count_occ_not_In string_dec).
    now rewrite analyze_query_select_star_count, H.
Qed.

Lemma select_star_tip_exactly_once_witness :
  count_occ string_dec (analyze_query "SELECT * FROM orders") select_star_tip = 1
  /\ ~ In select_star_tip (analyze_query "SELECT id FROM orders").
Proof.
  split.
  - apply (proj1 (select_star_tip_exactly_once "SELECT * FROM orders")).
    reflexivity.
  - apply (proj2 (select_star_tip_exactly_once "SELECT id FROM orders")).
    reflexivity.
Defined.

(** C10: whatever the query, the list of [analyze_query] starts with the
    header line and ends with the three generic tips, so it has at least
    four lines. *)
Theorem analyze_query_header_and_generic_tips (query : string) :
  exists tips : list string,
    analyze_query query = query_header :: tips ++ generic_tips
    /\ length generic_tips = 3
    /\ 4 <= length (analyze_query query).
Proof.
  exists (when (Str.contains "SELECT *" query) [select_star_tip]
          ++ when (Str.contains "JOIN" query)
               (join_tip :: when (negb (Str.contains "ON" query)) [join_on_tip])
          ++ when (Str.contains "WHERE" query) where_tips
          ++ when (Str.contains "GROUP BY" query) [group_by_tip]
          ++ when (Str.contains "ORDER BY" query) [order_by_tip]
          ++ when (Str.contains "LIMIT" query) [limit_tip]
          ++ when (Str.contains "DISTINCT" query) [distinct_tip]).
  assert (E : forall a b : list string,
             analyze_query query = query_header :: a ++ b ->
             length b = 3 -> 4 <= length (analyze_query query)).
  { intros a b -> Hb. simpl. rewrite length_app, Hb. lia. }
  assert (H : analyze_query query
              = query_header
                :: (when (Str.contains "SELECT *" query) [select_star_tip]
                    ++ when (Str.contains "JOIN" query)
                         (join_tip
                          :: when (negb (Str.contains "ON" query)) [join_on_tip])
                    ++ when (Str.contains "WHERE" query) where_tips
                    ++ when (Str.contains "GROUP BY" query) [group_by_tip]
                    ++ when (Str.contains "ORDER BY" query) [order_by_tip]
                    ++ when (Str.contains "LIMIT" query) [limit_tip]
                    ++ when (Str.contains "DISTINCT" query) [distinct_tip])
                   ++ generic_tips).
  { unfold analyze_query. rewrite <- !app_assoc. reflexivity. }
  split; [exact H|]. split; [reflexivity|].
  exact (E _ _ H eq_refl).
Qed.

(** ** The list of [analyze_query_plan]: absence of parallelism *)

(** The warning in the list that is built. *)
Lemma no_parallel_lines_built (plan : string) :
  Str.contains "Parallel" plan = false ->
  exists before after : list string,
    recommendations_of plan = before ++ no_parallel_lines ++ after
    /\ In no_parallel_header (recommendations_of plan).
Proof.
  intros H.
  assert (E : exists before after : list string,
             recommendations_of plan = before ++ no_parallel_lines ++ after).
  { rewrite analyze_query_plan_blocks, H. simpl negb. cbn [when].
    rewrite !app_assoc. rewrite <- (app_assoc _ no_parallel_lines).
    eexists _, _. reflexivity. }
  destruct E as (before & after & E). exists before, after.
  split; [exact E|]. rewrite E.
  apply in_or_app; right. apply in_or_app; left. now left.
Qed.

(** A plan without "Parallel" for which no list is returned: [int] raises
    on the 4301 digits after "Rows Removed by Filter: ". *)
Lemma no_parallel_warning_not_returned :
  Str.contains "Parallel" ("Rows Removed by Filter: " +:+ run "9" 4301) = false
  /\ analyze_query_plan ("Rows Removed by Filter: " +:+ run "9" 4301) = None.
Proof. split; vm_compute; reflexivity. Qed.

(** C4, as the code has it: for a plan that does not contain "Parallel"
    and in which no match that [int] is to convert has more than 4300
    digits, the function returns a list, and the list contains the six
    lines of the no-parallel-operations warning, in their order. *)
Theorem no_parallel_warning_present (plan : string) :
  Str.contains "Parallel" plan = false ->
  within_limit plan = true ->
  exists recs before after : list string,
    analyze_query_plan plan = Some recs
    /\ recs = before ++ no_parallel_lines ++ after
    /\ In no_parallel_header recs.
Proof.
  intros H Hlimit.
  destruct (no_parallel_lines_built plan H) as (before & after & E & Hin).
  exists (recommendations_of plan), before, after.
  split; [now apply analyze_query_plan_within|]. now split.
Qed.

Lemma no_parallel_warning_present_witness :
  exists recs before after : list string,
    analyze_query_plan "Seq Scan on orders" = Some recs
    /\ recs = before ++ no_parallel_lines ++ after
    /\ In no_parallel_header recs.
Proof.
  apply (no_parallel_warning_present "Seq Scan on orders"); reflexivity.
Defined.

(** ** [parse_query_plan] returns a node *)

Lemma split_lines_not_nil (s : string) : Parser.split_lines s <> [].
Proof.
  induction s as [|c s IH]; simpl; [discriminate|].
  destruct (Ascii.eqb c "010"); [discriminate|].
  destruct (Parser.split_lines s); [contradiction | discriminate].
Qed.

Lemma pop_levels_Forall (P : nat * nat -> Prop) (level : nat)
  (stack : list (nat * nat)) :
  Forall P stack -> Forall P (Parser.pop_levels level stack).
Proof.
  induction 1 as [|[l a] stack Hx Hst IH]; simpl; [constructor|].
  destruct (level <=? l)%nat; [exact IH | now constructor].
Qed.

Lemma step_invariant (st : Parser.state) (line : string) :
  parser_invariant st ->
  parser_invariant (Parser.step st line)
  /\ is_Some (Parser.root (Parser.step st line)).
Proof.
  intros (Hstore & Hstack & Hroot). unfold Parser.step.
  set (level := String.length line - String.length (Parser.lstrip line)).
  pose proof (pop_levels_Forall _ level _ Hstack) as Hpop.
  assert (Hnew : forall a name children,
             (Parser.store st ++ [(Parser.strip line, [])]) !! a
             = Some (name, children) ->
             Forall (fun k => a < k < S (length (Parser.store st))) children).
  { intros a name children Ha.
    apply lookup_app_Some in Ha as [Ha|[_ Ha]].
    - eapply Forall_impl; [exact (Hstore _ _ _ Ha)|]. simpl. lia.
    - apply list_lookup_singleton_Some in Ha as [_ [= _ <-]]. constructor. }
  destruct (Parser.pop_levels level (Parser.stack st))
    as [|[l parent] stack1] eqn:E.
  - split; [|simpl; eauto]. repeat split; simpl.
    + intros a name children Ha. rewrite length_app; simpl.
      rewrite Nat.add_1_r. eauto.
    + rewrite length_app; simpl. constructor; [simpl; lia | constructor].
    + rewrite length_app; simpl. lia.
  - assert (Hparent : parent < length (Parser.store st)).
    { now inversion Hpop. }
    assert (is_Some (Parser.root st)) as [r Hr].
    { destruct (Parser.root st); [eauto|].
      rewrite Hroot in E. discriminate E. }
    split; [|simpl; eauto]. repeat split; simpl.
    + intros a name children Ha. rewrite length_alter, length_app; simpl.
      rewrite Nat.add_1_r.
      destruct (decide (a = parent)) as [->|Hne].
      * rewrite list_lookup_alter_eq in Ha.
        destruct ((Parser.store st ++ [(Parser.strip line, [])]) !! parent)
          as [[name0 children0]|] eqn:Ep; [|discriminate].
        simpl in Ha. injection Ha as <- <-.
        apply Forall_app; split; [eauto|].
        constructor; [lia | constructor].
      * rewrite list_lookup_alter_ne in Ha by congruence. eauto.
    + rewrite length_alter, length_app; simpl.
      constructor; [simpl; lia|].
      eapply Forall_impl; [exact Hpop|]. simpl. lia.
    + rewrite Hr in *. rewrite length_alter, length_app; simpl. lia.
Qed.

Lemma run_invariant (lines : list string) :
  forall st : Parser.state,
    parser_invariant st -> lines <> [] ->
    parser_invariant (fold_left Parser.step lines st)
    /\ is_Some (Parser.root (fold_left Parser.step lines st)).
Proof.
  induction lines as [|line lines IH]; intros st Hst Hne; [congruence|].
  simpl. destruct (step_invariant st line Hst) as [Hst' Hroot].
  destruct lines as [|line' lines]; [now split|].
  now apply IH.
Qed.

Lemma read_total (store : list (string * list nat)) :
  (forall (a : nat) (name : string) (children : list nat),
     store !! a = Some (name, children) ->
     Forall (fun k => a < k < length store) children) ->
  forall fuel a : nat,
    a < length store -> length store <= a + fuel ->
    is_Some (Parser.read fuel store a).
Proof.
  intros Hstore. induction fuel as [|fuel IH]; intros a Ha Hfuel; [lia|].
  simpl. destruct (lookup_lt_is_Some_2 store a Ha) as [[name children] E].
  rewrite E. specialize (Hstore _ _ _ E).
  assert (is_Some (mapM (Parser.read fuel store) children)) as [cs ->]; [|eauto].
  apply mapM_is_Some. eapply Forall_impl; [exact Hstore|].
  simpl. intros k Hk. apply IH; lia.
Qed.

(** The parser returns a node for every plan text. *)
Lemma parse_query_plan_total (plan : string) :
  exists n : Parser.node, parse_query_plan plan = Some n.
Proof.
  unfold parse_query_plan, Parser.run.
  destruct (run_invariant (Parser.split_lines (Parser.strip plan))
              (Parser.mkState [] [] None)) as [(Hstore & _ & Hroot) [a Ha]].
  - repeat split; simpl; [intros a name children Ha; discriminate Ha | constructor].
  - apply split_lines_not_nil.
  - rewrite Ha in *. apply read_total; [exact Hstore | exact Hroot | lia].
Qed.

(** ** The request handler *)

Lemma index_in_post (g : gmap string Web.pyfunc) (r : Web.request)
  (plan q : string) :
  Web.req_method r = Web.POST ->
  Web.form r !! "query_plan" = Some plan ->
  Web.form r !! "query" = Some q ->
  g !! "analyze_query_plan" = Some Web.Fn_analyze_query_plan ->
  g !! "analyze_query" = Some Web.Fn_analyze_query ->
  Web.index_in g r
  = match analyze_query_plan plan with
    | Some recs =>
        inr (Web.mkPage (recs ++ when (Web.nonempty q) (analyze_query q))
               plan q)
    | None => inl Web.ValueError
    end.
Proof.
  intros Hm Hp Hq Hgp Hgq.
  unfold Web.index_in, Web.form_get, Web.lookup_global.
  rewrite Hm, Hp, Hq, Hgp. simpl.
  destruct (analyze_query_plan plan) as [recs|]; [|reflexivity]. simpl.
  destruct (Web.nonempty q); simpl.
  - now rewrite Hgq.
  - now rewrite app_nil_r.
Qed.

(** The empty plan with the empty query does not give the empty list. *)
Lemma empty_post_not_empty :
  analyze_query_plan "" <> Some []
  /\ Web.index (Web.post "" "") <> inr (Web.mkPage [] "" "").
Proof. split; vm_compute; discriminate. Qed.

(** C1, as the code has it: for the empty plan and the empty query a POST
    request gives exactly the six lines of the no-parallel-operations
    warning, [analyze_query] being skipped; the list is empty for a GET
    request. *)
Theorem empty_post_recommendations :
  Web.index (Web.post "" "") = inr (Web.mkPage no_parallel_lines "" "")
  /\ forall form : gmap string string,
       Web.index (Web.mkRequest Web.GET form) = inr (Web.mkPage [] "" "").
Proof. split; [vm_compute; reflexivity | reflexivity]. Qed.

(** A POST request without the field [query] is not answered as the one
    with an empty [query] is. *)
Lemma missing_field_no_default :
  Web.index (Web.mkRequest Web.POST (<["query_plan" := ""]> ∅))
  = inl (Web.BadRequestKeyError "query")
  /\ Web.index (Web.mkRequest Web.POST (<["query_plan" := ""]> ∅))
     <> Web.index (Web.post "" "").
Proof. split; vm_compute; [reflexivity | discriminate]. Qed.

(** C2, as the code has it: a POST request that lacks [query_plan] or
    [query] ends in the error of the failed lookup of that field and gives
    no page; with both fields there, empty or not, it gives the page with
    the lines of [analyze_query_plan] and, for a query that is not empty,
    those of [analyze_query], unless [analyze_query_plan] raises the
    [ValueError] of an [int(match)], with which the request ends. *)
Theorem post_fields_are_required (r : Web.request) :
  Web.req_method r = Web.POST ->
  (Web.form r !! "query_plan" = None ->
   Web.index r = inl (Web.BadRequestKeyError "query_plan"))
  /\ (forall plan : string,
        Web.form r !! "query_plan" = Some plan ->
        Web.form r !! "query" = None ->
        Web.index r = inl (Web.BadRequestKeyError "query"))
  /\ (forall plan q : string,
        Web.form r !! "query_plan" = Some plan ->
        Web.form r !! "query" = Some q ->
        Web.index r
        = match analyze_query_plan plan with
          | Some recs =>
              inr (Web.mkPage
                     (recs ++ when (Web.nonempty q) (analyze_query q))
                     plan q)
          | None => inl Web.ValueError
          end).
Proof.
  intros Hm. repeat split.
  - intros Hp. unfold Web.index, Web.index_in, Web.form_get.
    now rewrite Hm, Hp.
  - intros plan Hp Hq. unfold Web.index, Web.index_in, Web.form_get.
    now rewrite Hm, Hp, Hq.
  - intros plan q Hp Hq. now apply index_in_post.
Qed.

Lemma post_fields_are_required_witness :
  Web.index (Web.mkRequest Web.POST (<["query" := "SELECT 1"]> ∅))
  = inl (Web.BadRequestKeyError "query_plan").
Proof.
  apply (post_fields_are_required
           (Web.mkRequest Web.POST (<["query" := "SELECT 1"]> ∅)));
    reflexivity.
Defined.



(** ** Counting "Nested Loop" *)

Lemma count_from_positive_contains (sub s : string) (k : nat) :
  Str.count_from sub s k <> 0 -> Str.contains sub s = true.
Proof.
  revert k; induction s as [|c s IH]; intros k.
  - destruct k; simpl; [|congruence].
    destruct (Str.startswith "" sub); congruence.
  - destruct k as [|k]; cbn [Str.count_from].
    + destruct (Str.startswith (String c s) sub) eqn:E.
      * intros _. now apply contains_startswith.
      * intros H. apply contains_tail. eauto.
    + intros H. apply contains_tail. eauto.
Qed.

(** After an occurrence of "Nested Loop" the next ten positions start
    none: no occurrence overlaps another. *)
Lemma nested_loop_no_overlap (c : ascii) (s : string) :
  Str.startswith (String c s) "Nested Loop" = true ->
  no_occurrence "Nested Loop" 10 s = true.
Proof.
  unfold Str.startswith.
  destruct (Str.drop_prefix "Nested Loop" (String c s)) as [r|] eqn:E;
    [intros _ | discriminate].
  apply drop_prefix_Some in E. simpl in E. injection E as _ ->.
  reflexivity.
Qed.

Lemma count_from_nested_loop (s : string) :
  forall k : nat,
    k <= 10 -> no_occurrence "Nested Loop" k s = true ->
    Str.count_from "Nested Loop" s k = occurrences "Nested Loop" s.
Proof.
  induction s as [|c s IH]; intros k Hk Hfree.
  - destruct k; reflexivity.
  - destruct k as [|k].
    + cbn [Str.count_from occurrences].
      destruct (Str.startswith (String c s) "Nested Loop") eqn:E.
      * rewrite IH; [reflexivity | simpl; lia |].
        now apply nested_loop_no_overlap with c.
      * now rewrite IH by (reflexivity || lia).
    + cbn [Str.count_from occurrences].
      cbn [no_occurrence] in Hfree. apply andb_prop in Hfree as [Hc Hfree].
      apply Bool.negb_true_iff in Hc. rewrite Hc.
      apply IH; [lia | exact Hfree].
Qed.

(** [plan.count("Nested Loop")] is the number of occurrences. *)
Lemma nested_loops_occurrences (plan : string) :
  nested_loops plan = N.of_nat (occurrences "Nested Loop" plan).
Proof.
  unfold nested_loops, Str.count.
  now rewrite count_from_nested_loop by (reflexivity || lia).
Qed.

Lemma nested_loops_contains (plan : string) :
  (0 < nested_loops plan)%N -> Str.contains "Nested Loop" plan = true.
Proof.
  unfold nested_loops, Str.count. intros H.
  apply count_from_positive_contains with 0. lia.
Qed.

Lemma nested_loop_block_present (plan : string) :
  (2 < nested_loops plan)%N ->
  In (nested_loop_header (nested_loops plan)) (recommendations_of plan).
Proof.
  intros H. rewrite analyze_query_plan_blocks.
  rewrite (nested_loops_contains plan) by lia.
  do 5 (apply in_or_app; right). apply in_or_app; left.
  unfold nested_loop_block. apply N.ltb_lt in H. rewrite H.
  now left.
Qed.

(** The count in the list that is built. *)
Lemma nested_loop_count_built (plan : string) :
  3 <= occurrences "Nested Loop" plan ->
  In (Str.str (N.of_nat (occurrences "Nested Loop" plan))
      +:+ " nested loops detected. Consider the following:")
     (recommendations_of plan).
Proof.
  intros H. rewrite <- nested_loops_occurrences.
  apply nested_loop_block_present.
  rewrite nested_loops_occurrences. lia.
Qed.

(** A plan with three occurrences of "Nested Loop" for which no list is
    returned: [int] raises on the 4301 digits after
    "Rows Removed by Filter: ". *)
Lemma nested_loop_count_not_returned :
  3 <= occurrences "Nested Loop"
         ("Nested Loop Nested Loop Nested Loop Rows Removed by Filter: "
          +:+ run "9" 4301)
  /\ analyze_query_plan
       ("Nested Loop Nested Loop Nested Loop Rows Removed by Filter: "
        +:+ run "9" 4301)
     = None.
Proof. split; vm_compute; [lia | reflexivity]. Qed.

(** C6, as the code has it: for a plan with three or more occurrences of
    "Nested Loop" in which no match that [int] is to convert has more than
    4300 digits, the function returns a list, the list contains the
    nested-loop line, and the count the line states is the number of
    occurrences. *)
Theorem nested_loop_count_exact (plan : string) :
  3 <= occurrences "Nested Loop" plan ->
  within_limit plan = true ->
  exists recs : list string,
    analyze_query_plan plan = Some recs
    /\ In (Str.str (N.of_nat (occurrences "Nested Loop" plan))
           +:+ " nested loops detected. Consider the following:")
          recs.
Proof.
  intros H Hlimit. exists (recommendations_of plan).
  split; [now apply analyze_query_plan_within|].
  now apply nested_loop_count_built.
Qed.

Lemma nested_loop_count_exact_witness :
  exists recs : list string,
    analyze_query_plan "Nested Loop -> Nested Loop -> Nested LoopNested Loop"
    = Some recs
    /\ In (Str.str
             (N.of_nat
                (occurrences "Nested Loop"
                   "Nested Loop -> Nested Loop -> Nested LoopNested Loop"))
           +:+ " nested loops detected. Consider the following:")
          recs.
Proof.
  apply (nested_loop_count_exact
           "Nested Loop -> Nested Loop -> Nested LoopNested Loop");
    [vm_compute; lia | reflexivity].
Defined.

(** ** The lines of the list by their first character *)

Lemma str_head (n : N) :
  exists (c : ascii) (r : string),
    Str.str n = String c r /\ Str.is_digit c = true.
Proof.
  unfold Str.str. destruct (N.to_uint n); simpl;
    eexists _, _; split; reflexivity.
Qed.

Lemma head_hash_join_header (n : N) : first_char (hash_join_header n) = Some "L"%char.
Proof. reflexivity. Qed.

Lemma head_rows_removed_header (n : N) :
  first_char (rows_removed_header n) = Some "H"%char.
Proof. reflexivity. Qed.

Lemma head_nested_loop_header (n : N) :
  exists c : ascii,
    first_char (nested_loop_header n) = Some c /\ Str.is_digit c = true.
Proof.
  destruct (str_head n) as (c & r & E & Hc). exists c.
  unfold nested_loop_header. rewrite E. now split.
Qed.

Lemma plain_head_spec (x : string) :
  plain_head x = true ->
  exists c : ascii,
    first_char x = Some c /\ Str.is_digit c = false
    /\ c <> "L"%char /\ c <> "H"%char.
Proof.
  destruct x as [|c x]; [discriminate|]. simpl. intros H. exists c.
  split; [reflexivity|].
  repeat (apply Bool.orb_prop in H as [H|H];
          [apply Ascii.eqb_eq in H; subst c;
           repeat split; (reflexivity || discriminate) |]).
  discriminate.
Qed.

Lemma in_plain_lines (x : string) (l : list string) :
  forallb plain_head l = true -> In x l -> plain_head x = true.
Proof. intros Hl Hx. now apply (proj1 (forallb_forall _ _) Hl). Qed.

Lemma plain_seq_scan_lines (tables : list string) :
  forallb plain_head (flat_map seq_scan_lines tables) = true.
Proof.
  induction tables as [|t tables IH]; [reflexivity|].
  cbn [flat_map]. rewrite forallb_app, IH. reflexivity.
Qed.

(** The lines of the three blocks that state a count. *)
Lemma in_hash_join_lines (x : string) (n : N) :
  In x (hash_join_lines n) ->
  first_char x = Some "L"%char \/ first_char x = Some "-"%char.
Proof.
  intros H. repeat (destruct H as [<-|H]; [auto|]). destruct H.
Qed.

Lemma in_rows_removed_lines (x : string) (n : N) :
  In x (rows_removed_lines n) ->
  first_char x = Some "H"%char \/ first_char x = Some "-"%char.
Proof.
  intros H. repeat (destruct H as [<-|H]; [auto|]). destruct H.
Qed.

Lemma in_nested_loop_lines (x : string) (n : N) :
  In x (nested_loop_lines n) ->
  (exists c : ascii, first_char x = Some c /\ Str.is_digit c = true)
  \/ first_char x = Some "-"%char.
Proof.
  intros [<-|H]; [left; apply head_nested_loop_header|].
  right. repeat (destruct H as [<-|H]; [reflexivity|]). destruct H.
Qed.

Lemma in_hash_join_block (x : string) (plan : string) :
  In x (hash_join_warning plan) ->
  exists n : N,
    greatest (bucket_matches plan) = Some n /\ (100000 < n)%N
    /\ In x (hash_join_lines n).
Proof.
  unfold hash_join_warning, greatest.
  destruct (bucket_matches plan) as [|m ms]; [intros []|].
  intros H. apply in_when in H as [Hlt H]. apply N.ltb_lt in Hlt. eauto.
Qed.

Lemma in_rows_removed_block (x : string) (plan : string) :
  In x (rows_removed_warning plan) ->
  exists n : N,
    greatest (filter_matches plan) = Some n /\ (10000 < n)%N
    /\ In x (rows_removed_lines n).
Proof.
  unfold rows_removed_warning, greatest.
  destruct (filter_matches plan) as [|m ms]; [intros []|].
  intros H. apply in_when in H as [Hlt H]. apply N.ltb_lt in Hlt. eauto.
Qed.

Lemma in_nested_loop_block (x : string) (plan : string) :
  In x (nested_loop_block plan) ->
  (2 < nested_loops plan)%N /\ In x (nested_loop_lines (nested_loops plan)).
Proof.
  unfold nested_loop_block. intros H.
  apply in_when in H as [Hlt H]. apply N.ltb_lt in Hlt. auto.
Qed.

(** Where a line of the list comes from. *)
Lemma in_analyze_query_plan (x : string) (plan : string) :
  In x (recommendations_of plan) ->
  plain_head x = true
  \/ (Str.contains "Hash Join" plan = true /\ In x (hash_join_warning plan))
  \/ (Str.contains "Nested Loop" plan = true /\ In x (nested_loop_block plan))
  \/ In x (rows_removed_warning plan).
Proof.
  rewrite analyze_query_plan_blocks. intros H.
  repeat (apply in_app_or in H as [H|H];
          [apply in_when in H as [Hb H];
           first [ left; apply in_plain_lines with (2 := H); reflexivity
                 | left; apply (in_plain_lines x _ (plain_seq_scan_lines _) H)
                 | right; left; split; assumption
                 | right; right; left; split; assumption ] |]).
  now right; right; right.
Qed.

Ltac head_clash :=
  repeat match goal with
         | H : exists _, _ |- _ => destruct H as [? H]
         | H : _ /\ _ |- _ => destruct H
         | H : _ \/ _ |- _ => destruct H
         end;
  repeat match goal with
         | H : first_char ?x = Some _, H' : first_char ?x = Some _ |- _ =>
             rewrite H in H'; injection H' as H'; subst
         end;
  try discriminate; try congruence.

Lemma hash_join_warned_inv (plan : string) :
  hash_join_warned (recommendations_of plan) ->
  Str.contains "Hash Join" plan = true
  /\ exists n : N, greatest (bucket_matches plan) = Some n /\ (100000 < n)%N.
Proof.
  intros [n H]. pose proof (head_hash_join_header n) as Hh.
  apply in_analyze_query_plan in H as [H|[[Hc H]|[[_ H]|H]]].
  - apply plain_head_spec in H. head_clash.
  - apply in_hash_join_block in H as (k & ? & ? & _). eauto.
  - apply in_nested_loop_block in H as [_ H].
    apply in_nested_loop_lines in H. head_clash.
  - apply in_rows_removed_block in H as (k & _ & _ & H).
    apply in_rows_removed_lines in H. head_clash.
Qed.

Lemma hash_join_warned_threshold (plan : string) :
  hash_join_warned (recommendations_of plan) ->
  exists n : N, greatest (bucket_matches plan) = Some n /\ (100000 < n)%N.
Proof. intros H. now apply hash_join_warned_inv in H as [_ H]. Qed.

Lemma rows_removed_warned_threshold (plan : string) :
  rows_removed_warned (recommendations_of plan) ->
  exists n : N, greatest (filter_matches plan) = Some n /\ (10000 < n)%N.
Proof.
  intros [n H]. pose proof (head_rows_removed_header n) as Hh.
  apply in_analyze_query_plan in H as [H|[[_ H]|[[_ H]|H]]].
  - apply plain_head_spec in H. head_clash.
  - apply in_hash_join_block in H as (k & _ & _ & H).
    apply in_hash_join_lines in H. head_clash.
  - apply in_nested_loop_block in H as [_ H].
    apply in_nested_loop_lines in H. head_clash.
  - apply in_rows_removed_block in H as (k & ? & ? & _). eauto.
Qed.

Lemma nested_loop_warned_threshold (plan : string) :
  nested_loop_warned (recommendations_of plan) -> (2 < nested_loops plan)%N.
Proof.
  intros [n H]. destruct (head_nested_loop_header n) as (c & Hh & Hc).
  apply in_analyze_query_plan in H as [H|[[_ H]|[[_ H]|H]]].
  - apply plain_head_spec in H. head_clash.
  - apply in_hash_join_block in H as (k & _ & _ & H).
    apply in_hash_join_lines in H. head_clash.
  - now apply in_nested_loop_block in H as [? _].
  - apply in_rows_removed_block in H as (k & _ & _ & H).
    apply in_rows_removed_lines in H. head_clash.
Qed.

(** C8: the three thresholds are strict. The large-hash-join warning is in
    the list only when the greatest bucket count extracted exceeds 100000,
    the rows-removed warning only when the greatest count extracted
    exceeds 10000, the nested-loop warning only when the count of
    "Nested Loop" exceeds 2; at or below its threshold a warning is not in
    the list. The list is any list that the function returns. *)
Theorem thresholds_are_strict (plan : string) (recs : list string) :
  analyze_query_plan plan = Some recs ->
  (hash_join_warned recs ->
   exists n : N, greatest (bucket_matches plan) = Some n /\ (100000 < n)%N)
  /\ (rows_removed_warned recs ->
      exists n : N, greatest (filter_matches plan) = Some n /\ (10000 < n)%N)
  /\ (nested_loop_warned recs ->
      (2 < nested_loops plan)%N)
  /\ (forall n : N,
        greatest (bucket_matches plan) = Some n -> (n <= 100000)%N ->
        ~ hash_join_warned recs)
  /\ (forall n : N,
        greatest (filter_matches plan) = Some n -> (n <= 10000)%N ->
        ~ rows_removed_warned recs)
  /\ ((nested_loops plan <= 2)%N ->
      ~ nested_loop_warned recs).
Proof.
  intros Hrecs. apply analyze_query_plan_Some in Hrecs as [_ ->].
  repeat split.
  - apply hash_join_warned_threshold.
  - apply rows_removed_warned_threshold.
  - apply nested_loop_warned_threshold.
  - intros n Hn Hle Hw.
    apply hash_join_warned_threshold in Hw as (k & Hk & Hlt).
    rewrite Hn in Hk. injection Hk as <-. lia.
  - intros n Hn Hle Hw.
    apply rows_removed_warned_threshold in Hw as (k & Hk & Hlt).
    rewrite Hn in Hk. injection Hk as <-. lia.
  - intros Hle Hw. apply nested_loop_warned_threshold in Hw. lia.
Qed.

Lemma thresholds_are_strict_witness :
  (exists recs : list string,
     analyze_query_plan "Hash Join  buckets=100000" = Some recs
     /\ ~ hash_join_warned recs)
  /\ (exists recs : list string,
        analyze_query_plan "Rows Removed by Filter: 10000" = Some recs
        /\ ~ rows_removed_warned recs)
  /\ (exists recs : list string,
        analyze_query_plan "Nested Loop Nested Loop" = Some recs
        /\ ~ nested_loop_warned recs).
Proof.
  split; [|split].
  - exists (recommendations_of "Hash Join  buckets=100000").
    assert (H : analyze_query_plan "Hash Join  buckets=100000"
                = Some (recommendations_of "Hash Join  buckets=100000"))
      by (apply analyze_query_plan_within; reflexivity).
    split; [exact H|].
    apply (proj1 (proj2 (proj2 (proj2
             (thresholds_are_strict _ _ H)))) 100000%N).
    + reflexivity.
    + vm_compute. discriminate.
  - exists (recommendations_of "Rows Removed by Filter: 10000").
    assert (H : analyze_query_plan "Rows Removed by Filter: 10000"
                = Some (recommendations_of "Rows Removed by Filter: 10000"))
      by (apply analyze_query_plan_within; reflexivity).
    split; [exact H|].
    apply (proj1 (proj2 (proj2 (proj2 (proj2
             (thresholds_are_strict _ _ H))))) 10000%N).
    + reflexivity.
    + vm_compute. discriminate.
  - exists (recommendations_of "Nested Loop Nested Loop").
    assert (H : analyze_query_plan "Nested Loop Nested Loop"
                = Some (recommendations_of "Nested Loop Nested Loop"))
      by (apply analyze_query_plan_within; reflexivity).
    split; [exact H|].
    apply (proj2 (proj2 (proj2 (proj2 (proj2
             (thresholds_are_strict _ _ H)))))).
    vm_compute. discriminate.
Defined.

(** Above its threshold each warning is in the list, the hash-join one
    provided the plan contains "Hash Join". *)
Lemma warnings_above_thresholds (plan : string) :
  (forall n : N,
     Str.contains "Hash Join" plan = true ->
     greatest (bucket_matches plan) = Some n -> (100000 < n)%N ->
     In (hash_join_header n) (recommendations_of plan))
  /\ (forall n : N,
        greatest (filter_matches plan) = Some n -> (10000 < n)%N ->
        In (rows_removed_header n) (recommendations_of plan))
  /\ ((2 < nested_loops plan)%N ->
      In (nested_loop_header (nested_loops plan)) (recommendations_of plan)).
Proof.
  repeat split.
  - intros n Hc Hn Hlt. rewrite analyze_query_plan_blocks, Hc.
    do 4 (apply in_or_app; right). apply in_or_app; left.
    unfold hash_join_warning. unfold greatest in Hn.
    destruct (bucket_matches plan) as [|m ms]; [discriminate|].
    injection Hn as ->. apply N.ltb_lt in Hlt. rewrite Hlt. now left.
  - intros n Hn Hlt. rewrite analyze_query_plan_blocks.
    do 11 (apply in_or_app; right).
    unfold rows_removed_warning. unfold greatest in Hn.
    destruct (filter_matches plan) as [|m ms]; [discriminate|].
    injection Hn as ->. apply N.ltb_lt in Hlt. rewrite Hlt. now left.
  - apply nested_loop_block_present.
Qed.

(** ** Finding the bucket counts *)

Lemma not_in_by_eqb (x : string) (l : list string) :
  existsb (String.eqb x) l = false -> ~ In x l.
Proof.
  intros H Hin. apply Bool.not_true_iff_false in H. apply H.
  apply existsb_exists. exists x. split; [exact Hin | apply String.eqb_refl].
Qed.

Lemma int_acc_append (acc : N) (a b : string) :
  Str.int_acc acc (a +:+ b) = Str.int_acc (Str.int_acc acc a) b.
Proof. revert acc; induction a as [|c a IH]; intros acc; simpl; auto. Qed.

Lemma int_acc_ge (acc : N) (m : string) : (acc <= Str.int_acc acc m)%N.
Proof.
  revert acc; induction m as [|c m IH]; intros acc; simpl; [lia|].
  specialize (IH (10 * acc + Str.digit_value c)%N). lia.
Qed.

Lemma fold_max_ge (ms : list string) (acc : N) :
  (acc <= fold_left (fun a x => N.max a (Str.value x)) ms acc)%N.
Proof.
  revert acc; induction ms as [|m ms IH]; intros acc; simpl; [lia|].
  specialize (IH (N.max acc (Str.value m))). lia.
Qed.

Lemma fold_max_in (x : string) (ms : list string) (acc : N) :
  In x ms ->
  (Str.value x <= fold_left (fun a x => N.max a (Str.value x)) ms acc)%N.
Proof.
  revert acc; induction ms as [|m ms IH]; intros acc; simpl; [intros []|].
  intros [->|H]; [|now apply IH].
  pose proof (fold_max_ge ms (N.max acc (Str.value x))). lia.
Qed.

Lemma max_int_ge (x m : string) (ms : list string) :
  In x (m :: ms) -> (Str.value x <= Str.max_value m ms)%N.
Proof.
  unfold Str.max_value. intros [->|H].
  - apply fold_max_ge.
  - now apply fold_max_in.
Qed.

Lemma take_while_append (cls : ascii -> bool) (a b : string) :
  all_class cls a = true ->
  Str.take_while cls (a +:+ b) = a +:+ Str.take_while cls b.
Proof.
  induction a as [|c a IH]; simpl; [reflexivity|].
  intros H. apply andb_prop in H as [-> H]. now rewrite IH.
Qed.

Lemma free_of_append (c0 : ascii) (a b : string) (k : nat) :
  free_of c0 (String.length a) a = true -> free_of c0 k b = true ->
  free_of c0 (String.length a + k) (a +:+ b) = true.
Proof.
  induction a as [|c a IH]; simpl; [auto|].
  intros H Hb. apply andb_prop in H as [-> H]. simpl. auto.
Qed.

Lemma free_of_take_while (c0 : ascii) (cls : ascii -> bool) (s : string) :
  cls c0 = false ->
  free_of c0 (String.length (Str.take_while cls s)) s = true.
Proof.
  intros H0. induction s as [|c s IH]; simpl; [reflexivity|].
  destruct (cls c) eqn:Hc; simpl; [|reflexivity].
  rewrite IH, Bool.andb_true_r. apply Bool.negb_true_iff.
  apply Ascii.eqb_neq. congruence.
Qed.

Lemma match_lit_class_inv (lit : string) (cls : ascii -> bool) (s cap : string) :
  Str.match_lit_class lit cls s = Some cap ->
  exists rest : string,
    s = lit +:+ rest /\ cap = Str.take_while cls rest /\ cap <> "".
Proof.
  unfold Str.match_lit_class.
  destruct (Str.drop_prefix lit s) as [rest|] eqn:E; [|discriminate].
  apply drop_prefix_Some in E.
  destruct (Str.take_while cls rest) eqn:T; [discriminate|].
  intros [= <-]. exists rest. rewrite T. now repeat split.
Qed.

(** A pattern whose literal starts with a character that is neither in
    the class nor again in the literal: [findall] misses no place at which
    the pattern matches. *)
Lemma findall_from_finds (c0 : ascii) (lit' : string) (cls : ascii -> bool) :
  cls c0 = false ->
  free_of c0 (String.length lit') lit' = true ->
  forall (pre : string) (k : nat) (s cap : string),
    free_of c0 k (pre +:+ s) = true ->
    Str.match_lit_class (String c0 lit') cls s = Some cap ->
    In cap (Str.findall_from (String c0 lit') cls (pre +:+ s) k).
Proof.
  intros Hcls Hlit. induction pre as [|c pre IH]; intros k s cap Hfree Hm.
  - simpl in *. destruct (match_lit_class_inv _ _ _ _ Hm) as (rest & -> & _ & _).
    simpl in *. destruct k as [|k].
    + rewrite Hm. now left.
    + simpl in Hfree. now rewrite Ascii.eqb_refl in Hfree.
  - simpl String.append in *. destruct k as [|k]; cbn [Str.findall_from].
    + destruct (Str.match_lit_class (String c0 lit') cls
                  (String c (pre +:+ s))) as [cap'|] eqn:E.
      * right. apply IH; [|exact Hm].
        destruct (match_lit_class_inv _ _ _ _ E) as (rest & Es & -> & _).
        simpl in Es. injection Es as _ Es. rewrite Es. simpl.
        rewrite Nat.sub_0_r.
        apply free_of_append; [exact Hlit|].
        now apply free_of_take_while.
      * now apply IH.
    + simpl in Hfree. apply andb_prop in Hfree as [_ Hfree]. now apply IH.
Qed.

Lemma bucket_count_found (plan : string) :
  Str.contains "buckets=150000" plan = true ->
  exists x : string, In x (bucket_matches plan) /\ (150000 <= Str.value x)%N.
Proof.
  intros H. apply contains_split in H as (pre & post & ->).
  exists ("150000" +:+ Str.take_while Str.is_digit post). split.
  - unfold bucket_matches, Str.findall.
    change ("buckets=150000" +:+ post) with ("buckets=" +:+ "150000" +:+ post).
    apply (findall_from_finds "b" "uckets=" Str.is_digit);
      [reflexivity | reflexivity | reflexivity |].
    unfold Str.match_lit_class. rewrite drop_prefix_append.
    now rewrite take_while_append by reflexivity.
  - unfold Str.value. rewrite int_acc_append. apply int_acc_ge.
Qed.

(** Three plans with "buckets=150000" and no warning with the count
    150000: the first has no "Hash Join" and no hash-join warning at all,
    in the second the digits go on and the count is 1500000, in the third
    they go on for 4301 digits, [int] raises and no list is returned. *)
Lemma buckets_150000_not_warned :
  (Str.contains "buckets=150000" "buckets=150000" = true
   /\ exists recs : list string,
        analyze_query_plan "buckets=150000" = Some recs
        /\ ~ hash_join_warned recs)
  /\ (Str.contains "buckets=150000" "Hash Join  buckets=1500000" = true
      /\ exists recs : list string,
           analyze_query_plan "Hash Join  buckets=1500000" = Some recs
           /\ ~ In (hash_join_header 150000) recs
           /\ In (hash_join_header 1500000) recs)
  /\ (Str.contains "Hash Join" ("Hash Join buckets=150000" +:+ run "0" 4295)
      = true
      /\ Str.contains "buckets=150000"
           ("Hash Join buckets=150000" +:+ run "0" 4295) = true
      /\ analyze_query_plan ("Hash Join buckets=150000" +:+ run "0" 4295)
         = None).
Proof.
  split; [|split]; split; try (vm_compute; reflexivity).
  - exists (recommendations_of "buckets=150000").
    split; [apply analyze_query_plan_within; reflexivity|].
    intros H. apply hash_join_warned_inv in H as [H _]. discriminate H.
  - exists (recommendations_of "Hash Join  buckets=1500000").
    split; [apply analyze_query_plan_within; reflexivity|]. split.
    + apply not_in_by_eqb. reflexivity.
    + vm_compute. tauto.
  - split; vm_compute; reflexivity.
Qed.

(** The warning in the list that is built. *)
Lemma large_hash_join_built (plan : string) :
  Str.contains "Hash Join" plan = true ->
  Str.contains "buckets=150000" plan = true ->
  exists n : N,
    greatest (bucket_matches plan) = Some n
    /\ (150000 <= n)%N
    /\ In (hash_join_header n) (recommendations_of plan).
Proof.
  intros Hj Hb. destruct (bucket_count_found plan Hb) as (x & Hx & Hge).
  destruct (bucket_matches plan) as [|m ms] eqn:E; [destruct Hx|].
  pose proof (max_int_ge x m ms Hx) as Hmax.
  exists (Str.max_value m ms). repeat split; [lia|].
  apply (proj1 (warnings_above_thresholds plan)); [exact Hj| |lia].
  now rewrite E.
Qed.

(** C3, as the code has it: for a plan that contains "Hash Join" and
    "buckets=150000" and in which no match that [int] is to convert has
    more than 4300 digits, the function returns a list that contains the
    large-hash-join warning; the count it states is the greatest bucket
    count extracted from the plan, which is at least 150000, and the line
    reads 150000 when that count is 150000. *)
Theorem large_hash_join_buckets_150000 (plan : string) :
  Str.contains "Hash Join" plan = true ->
  Str.contains "buckets=150000" plan = true ->
  within_limit plan = true ->
  exists (recs : list string) (n : N),
    analyze_query_plan plan = Some recs
    /\ greatest (bucket_matches plan) = Some n
    /\ (150000 <= n)%N
    /\ In (hash_join_header n) recs
    /\ (n = 150000%N ->
        In "Large hash join detected (150000 buckets). Consider:" recs).
Proof.
  intros Hj Hb Hlimit.
  destruct (large_hash_join_built plan Hj Hb) as (n & Hn & Hge & Hin).
  exists (recommendations_of plan), n.
  split; [now apply analyze_query_plan_within|].
  repeat split; try assumption.
  intros E. now rewrite E in Hin.
Qed.

Lemma large_hash_join_buckets_150000_witness :
  exists (recs : list string) (n : N),
    analyze_query_plan "Hash Join  (cost=1.00..2.00) buckets=150000 batches=1"
    = Some recs
    /\ greatest (bucket_matches "Hash Join  (cost=1.00..2.00) buckets=150000 batches=1")
       = Some n
    /\ (150000 <= n)%N
    /\ In (hash_join_header n) recs
    /\ (n = 150000%N ->
        In "Large hash join detected (150000 buckets). Consider:" recs).
Proof.
  apply (large_hash_join_buckets_150000
           "Hash Join  (cost=1.00..2.00) buckets=150000 batches=1");
    reflexivity.
Defined.

(** ** Finding the table of a sequential scan *)

Lemma findall_from_match (lit : string) (cls : ascii -> bool) (s cap : string) :
  Str.match_lit_class lit cls s = Some cap ->
  In cap (Str.findall_from lit cls s 0).
Proof.
  destruct s as [|c s].
  - unfold Str.match_lit_class. destruct lit; simpl; discriminate.
  - intros H. cbn [Str.findall_from]. rewrite H. now left.
Qed.

Lemma take_while_stops (cls : ascii -> bool) (a b : string) :
  all_class cls a = false ->
  Str.take_while cls (a +:+ b) = Str.take_while cls a.
Proof.
  induction a as [|c a IH]; simpl; [discriminate|].
  destruct (cls c); simpl; [|reflexivity].
  intros H. now rewrite IH.
Qed.

Lemma length_take_while (cls : ascii -> bool) (s : string) :
  String.length (Str.take_while cls s) <= String.length s.
Proof.
  induction s as [|c s IH]; simpl; [lia|].
  destruct (cls c); simpl; lia.
Qed.

Lemma take_while_word_ends (post : string) :
  word_ends post = true -> Str.take_while Str.is_word post = "".
Proof.
  destruct post as [|c post]; simpl; [reflexivity|].
  now intros ->%Bool.negb_true_iff.
Qed.

Lemma table_match_at_occurrence (post : string) :
  word_ends post = true ->
  Str.match_lit_class "Seq Scan on " Str.is_word ("Seq Scan on orders" +:+ post)
  = Some "orders".
Proof.
  intros H. unfold Str.match_lit_class.
  change ("Seq Scan on orders" +:+ post)
    with ("Seq Scan on " +:+ "orders" +:+ post).
  rewrite drop_prefix_append, take_while_append by reflexivity.
  now rewrite take_while_word_ends.
Qed.

(** The literal "Seq Scan on " does not start in [pre] and end in an
    occurrence of "Seq Scan on orders" that follows [pre]. *)
Lemma table_literal_not_astride (pre post rest : string) :
  pre <> "" ->
  Str.drop_prefix "Seq Scan on " pre = None ->
  Str.drop_prefix "Seq Scan on " (pre +:+ "Seq Scan on orders" +:+ post)
  = Some rest ->
  False.
Proof.
  intros Hne Hp H.
  destruct pre as [|a pre]; [congruence|]. clear Hne.
  cbn [Str.drop_prefix String.append] in H, Hp.
  destruct (Ascii.eqb _ a); [|discriminate].
  do 11 (destruct pre as [|a' pre];
         [ simpl in H; discriminate H
         | cbn [Str.drop_prefix String.append] in H, Hp;
           destruct (Ascii.eqb _ a'); [|discriminate]; clear a' ]).
  discriminate.
Qed.

(** A match that starts in [pre] ends in [pre], unless [pre] ends inside
    an open match. *)
Lemma table_match_stays_in_pre (pre post cap : string) :
  pre <> "" ->
  open_table_match pre = false ->
  Str.match_lit_class "Seq Scan on " Str.is_word
    (pre +:+ "Seq Scan on orders" +:+ post) = Some cap ->
  String.length "Seq Scan on " + String.length cap <= String.length pre.
Proof.
  intros Hne Hopen Hm.
  destruct (Str.drop_prefix "Seq Scan on " pre) as [w|] eqn:Ep.
  - assert (Hw : all_class Str.is_word w = false).
    { destruct pre as [|c pre']; [congruence|].
      cbn [open_table_match] in Hopen. rewrite Ep in Hopen.
      now apply Bool.orb_false_elim in Hopen as [? _]. }
    apply drop_prefix_Some in Ep. subst pre.
    rewrite append_assoc in Hm. unfold Str.match_lit_class in Hm.
    rewrite drop_prefix_append, (take_while_stops _ _ _ Hw) in Hm.
    destruct (Str.take_while Str.is_word w) eqn:T; [discriminate|].
    injection Hm as <-. rewrite <- T, length_append.
    pose proof (length_take_while Str.is_word w). lia.
  - exfalso. unfold Str.match_lit_class in Hm.
    destruct (Str.drop_prefix "Seq Scan on "
                (pre +:+ "Seq Scan on orders" +:+ post)) as [rest|] eqn:E;
      [|discriminate].
    exact (table_literal_not_astride pre post rest Hne Ep E).
Qed.

Lemma open_table_match_tail (c : ascii) (pre : string) :
  open_table_match (String c pre) = false -> open_table_match pre = false.
Proof.
  cbn [open_table_match]. intros H.
  now apply Bool.orb_false_elim in H as [_ ?].
Qed.

Lemma table_orders_found (post : string) :
  word_ends post = true ->
  forall (pre : string) (k : nat),
    open_table_match pre = false -> k <= String.length pre ->
    In "orders"
       (Str.findall_from "Seq Scan on " Str.is_word
          (pre +:+ "Seq Scan on orders" +:+ post) k).
Proof.
  intros Hpost. induction pre as [|c pre IH]; intros k Hopen Hk.
  - simpl in Hk. assert (k = 0) as -> by lia.
    apply findall_from_match. now apply table_match_at_occurrence.
  - pose proof (open_table_match_tail c pre Hopen) as Hopen'.
    destruct k as [|k].
    + change (String c pre +:+ "Seq Scan on orders" +:+ post)
        with (String c (pre +:+ "Seq Scan on orders" +:+ post)).
      cbn [Str.findall_from].
      destruct (Str.match_lit_class "Seq Scan on " Str.is_word
                  (String c (pre +:+ "Seq Scan on orders" +:+ post)))
        as [cap|] eqn:E.
      * right. apply IH; [exact Hopen'|].
        pose proof (table_match_stays_in_pre (String c pre) post cap) as Hin.
        simpl String.length in *. specialize (Hin ltac:(discriminate) Hopen E).
        lia.
      * apply IH; [exact Hopen' | lia].
    + change (String c pre +:+ "Seq Scan on orders" +:+ post)
        with (String c (pre +:+ "Seq Scan on orders" +:+ post)).
      cbn [Str.findall_from]. apply IH; [exact Hopen'|].
      simpl in Hk. lia.
Qed.

(** Three plans with "Seq Scan on orders" and no suggestion for the table
    [orders]: in the first the name goes on and the table is [orders2], in
    the second the occurrence is taken as the end of the table name
    [xSeq] of an earlier match, for the third [int] raises on 4301 digits
    and no list is returned. *)
Lemma seq_scan_on_orders_not_named :
  (Str.contains "Seq Scan on orders" "Seq Scan on orders2" = true
   /\ seq_scan_tables "Seq Scan on orders2" = ["orders2"]
   /\ exists recs : list string,
        analyze_query_plan "Seq Scan on orders2" = Some recs
        /\ ~ In "Consider adding an index to table 'orders' to avoid sequential scans."
               recs
        /\ ~ In "- Suggested Index: `CREATE INDEX idx_orders_on_column ON orders (column_name);`"
               recs)
  /\ (Str.contains "Seq Scan on orders" "Seq Scan on xSeq Scan on orders" = true
      /\ seq_scan_tables "Seq Scan on xSeq Scan on orders" = ["xSeq"]
      /\ exists recs : list string,
           analyze_query_plan "Seq Scan on xSeq Scan on orders" = Some recs
           /\ ~ In "Consider adding an index to table 'orders' to avoid sequential scans."
                  recs
           /\ ~ In "- Suggested Index: `CREATE INDEX idx_orders_on_column ON orders (column_name);`"
                  recs)
  /\ (Str.contains "Seq Scan on orders"
        ("Seq Scan on orders Rows Removed by Filter: " +:+ run "9" 4301) = true
      /\ analyze_query_plan
           ("Seq Scan on orders Rows Removed by Filter: " +:+ run "9" 4301)
         = None).
Proof.
  split; [|split].
  - split; [reflexivity|]. split; [reflexivity|].
    exists (recommendations_of "Seq Scan on orders2").
    split; [apply analyze_query_plan_within; reflexivity|].
    split; apply not_in_by_eqb; reflexivity.
  - split; [reflexivity|]. split; [reflexivity|].
    exists (recommendations_of "Seq Scan on xSeq Scan on orders").
    split; [apply analyze_query_plan_within; reflexivity|].
    split; apply not_in_by_eqb; reflexivity.
  - split; vm_compute; reflexivity.
Qed.

(** The lines for the table in the list that is built. *)
Lemma seq_scan_on_orders_built (pre post : string) :
  open_table_match pre = false ->
  word_ends post = true ->
  incl (seq_scan_lines "orders")
    (recommendations_of (pre +:+ "Seq Scan on orders" +:+ post))
  /\ In "Consider adding an index to table 'orders' to avoid sequential scans."
        (recommendations_of (pre +:+ "Seq Scan on orders" +:+ post))
  /\ In "- Suggested Index: `CREATE INDEX idx_orders_on_column ON orders (column_name);`"
        (recommendations_of (pre +:+ "Seq Scan on orders" +:+ post)).
Proof.
  intros Hpre Hpost.
  assert (Hincl : incl (seq_scan_lines "orders")
                    (recommendations_of (pre +:+ "Seq Scan on orders" +:+ post))).
  { intros x Hx. rewrite analyze_query_plan_blocks.
    apply in_or_app; left.
    assert (Str.contains "Seq Scan" (pre +:+ "Seq Scan on orders" +:+ post)
            = true) as ->.
    { change ("Seq Scan on orders" +:+ post)
        with ("Seq Scan" +:+ " on orders" +:+ post).
      apply contains_occurrence. }
    cbn [when]. apply in_flat_map. exists "orders". split; [|exact Hx].
    apply table_orders_found; [exact Hpost | exact Hpre | lia]. }
  split; [exact Hincl|].
  split; apply Hincl; simpl; auto 6.
Qed.

(** C5, as the code has it: for a plan with an occurrence of
    "Seq Scan on orders" after which the name does not go on with a word
    character, that does not follow an unfinished match of the pattern
    (the text before it does not end with "Seq Scan on " and word
    characters), and in which no match that [int] is to convert has more
    than 4300 digits, the function returns a list that contains the five
    lines for the table [orders], among them the two that name it. *)
Theorem seq_scan_on_orders_suggestion (pre post : string) :
  open_table_match pre = false ->
  word_ends post = true ->
  within_limit (pre +:+ "Seq Scan on orders" +:+ post) = true ->
  exists recs : list string,
    analyze_query_plan (pre +:+ "Seq Scan on orders" +:+ post) = Some recs
    /\ incl (seq_scan_lines "orders") recs
    /\ In "Consider adding an index to table 'orders' to avoid sequential scans."
          recs
    /\ In "- Suggested Index: `CREATE INDEX idx_orders_on_column ON orders (column_name);`"
          recs.
Proof.
  intros Hpre Hpost Hlimit.
  exists (recommendations_of (pre +:+ "Seq Scan on orders" +:+ post)).
  split; [now apply analyze_query_plan_within|].
  now apply seq_scan_on_orders_built.
Qed.

Lemma seq_scan_on_orders_suggestion_witness :
  exists recs : list string,
    analyze_query_plan
      ("Hash Join  (cost=1.00..2.00) ->  " +:+ "Seq Scan on orders"
       +:+ "  (cost=0.00..1.00 rows=10)") = Some recs
    /\ incl (seq_scan_lines "orders") recs
    /\ In "Consider adding an index to table 'orders' to avoid sequential scans."
          recs
    /\ In "- Suggested Index: `CREATE INDEX idx_orders_on_column ON orders (column_name);`"
          recs.
Proof.
  exact (seq_scan_on_orders_suggestion
           "Hash Join  (cost=1.00..2.00) ->  "
           "  (cost=0.00..1.00 rows=10)" eq_refl eq_refl eq_refl).
Defined.

(** ** More on [analyze_query] *)

Lemma has_char_append (cls : ascii -> bool) (a b : string) :
  has_char cls (a +:+ b) = has_char cls a || has_char cls b.
Proof.
  induction a as [|c a IH]; simpl; [reflexivity|].
  now rewrite IH, Bool.orb_assoc.
Qed.

Lemma contains_has_char (cls : ascii -> bool) (sub s : string) :
  has_char cls sub = true -> has_char cls s = false ->
  Str.contains sub s = false.
Proof.
  intros Hsub Hs. destruct (Str.contains sub s) eqn:E; [|reflexivity].
  apply contains_split in E as (pre & post & ->).
  rewrite !has_char_append, Hsub in Hs.
  now rewrite Bool.orb_true_r in Hs.
Qed.

(** X1: the keywords are looked for as they are written, in capitals: for
    a query with no capital letter the list is the header and the three
    generic tips, nothing else. *)
Theorem analyze_query_without_capitals (query : string) :
  has_char is_upper query = false ->
  analyze_query query = query_header :: generic_tips.
Proof.
  intros H. unfold analyze_query.
  rewrite !(contains_has_char is_upper _ query) by (reflexivity || exact H).
  reflexivity.
Qed.

Lemma analyze_query_without_capitals_witness :
  analyze_query "select * from orders join items where id = 1 limit 5"
  = query_header :: generic_tips.
Proof.
  apply (analyze_query_without_capitals
           "select * from orders join items where id = 1 limit 5").
  reflexivity.
Defined.

Lemma distinct_NoDup (l : list string) : distinct l = true -> List.NoDup l.
Proof.
  induction l as [|x l IH]; simpl; [constructor|].
  intros H. apply andb_prop in H as [Hx Hl].
  constructor; [|now apply IH].
  apply not_in_by_eqb. now apply Bool.negb_true_iff.
Qed.

(** X2: no line is twice in the list of [analyze_query], whatever the
    query. *)
Theorem analyze_query_no_duplicates (query : string) :
  List.NoDup (analyze_query query).
Proof.
  apply distinct_NoDup. unfold analyze_query.
  generalize (Str.contains "SELECT *" query), (Str.contains "JOIN" query),
    (Str.contains "ON" query), (Str.contains "WHERE" query),
    (Str.contains "GROUP BY" query), (Str.contains "ORDER BY" query),
    (Str.contains "LIMIT" query), (Str.contains "DISTINCT" query).
  intros [] [] [] [] [] [] [] []; vm_compute; reflexivity.
Qed.

(** ** More on the list: where each line comes from *)

Lemma in_analyze_query_plan_iff (x : string) (plan : string) :
  In x (recommendations_of plan) <->
  (Str.contains "Seq Scan" plan = true
   /\ exists t : string, In t (seq_scan_tables plan) /\ In x (seq_scan_lines t))
  \/ (Str.contains "Index Scan" plan = true /\ In x index_scan_lines)
  \/ (Str.contains "Index Only Scan" plan = true /\ In x index_only_scan_lines)
  \/ (Str.contains "Bitmap Heap Scan" plan = true /\ In x bitmap_heap_scan_lines)
  \/ (Str.contains "Hash Join" plan = true /\ In x (hash_join_warning plan))
  \/ (Str.contains "Nested Loop" plan = true /\ In x (nested_loop_block plan))
  \/ (Str.contains "Merge Join" plan = true /\ In x merge_join_lines)
  \/ (Str.contains "Sort" plan = true /\ In x sort_lines)
  \/ (Str.contains "Aggregate" plan = true /\ In x aggregate_lines)
  \/ (Str.contains "Materialize" plan = true /\ In x materialize_lines)
  \/ (Str.contains "Parallel" plan = false /\ In x no_parallel_lines)
  \/ In x (rows_removed_warning plan).
Proof.
  rewrite analyze_query_plan_blocks, !in_app_iff, !in_when, in_flat_map.
  rewrite Bool.negb_true_iff. reflexivity.
Qed.

Lemma in_seq_scan_lines (x t : string) :
  In x (seq_scan_lines t) ->
  first_char x = Some "C"%char \/ first_char x = Some "-"%char.
Proof.
  intros H. repeat (destruct H as [<-|H]; [auto|]). destruct H.
Qed.

(** A line that starts as neither the lines for a table nor the lines with
    a count do is a line of one of the eight blocks of fixed lines. *)
Lemma in_fixed_block (x : string) (plan : string) (c : ascii) :
  first_char x = Some c ->
  c <> "C"%char -> c <> "-"%char -> c <> "L"%char -> c <> "H"%char ->
  Str.is_digit c = false ->
  In x (recommendations_of plan) ->
  (Str.contains "Index Scan" plan = true /\ In x index_scan_lines)
  \/ (Str.contains "Index Only Scan" plan = true /\ In x index_only_scan_lines)
  \/ (Str.contains "Bitmap Heap Scan" plan = true /\ In x bitmap_heap_scan_lines)
  \/ (Str.contains "Merge Join" plan = true /\ In x merge_join_lines)
  \/ (Str.contains "Sort" plan = true /\ In x sort_lines)
  \/ (Str.contains "Aggregate" plan = true /\ In x aggregate_lines)
  \/ (Str.contains "Materialize" plan = true /\ In x materialize_lines)
  \/ (Str.contains "Parallel" plan = false /\ In x no_parallel_lines).
Proof.
  intros Hx HC Hm HL HH Hd H.
  apply in_analyze_query_plan_iff in H.
  destruct H as [(_ & t & _ & H)|[H|[H|[H|[[_ H]|[[_ H]|[H|[H|[H|[H|[H|H]]]]]]]]]]];
    try tauto.
  - apply in_seq_scan_lines in H. head_clash.
  - apply in_hash_join_block in H as (k & _ & _ & H).
    apply in_hash_join_lines in H. head_clash.
  - apply in_nested_loop_block in H as [_ H].
    apply in_nested_loop_lines in H. head_clash.
  - apply in_rows_removed_block in H as (k & _ & _ & H).
    apply in_rows_removed_lines in H. head_clash.
Qed.

Ltac fixed_header :=
  let H := fresh in
  intros H;
  eapply in_fixed_block in H;
  [ | reflexivity | discriminate | discriminate | discriminate | discriminate
    | reflexivity ];
  repeat (destruct H as [[? H]|H]);
  try destruct H as [? H];
  first [ assumption
        | exfalso; revert H; apply not_in_by_eqb; reflexivity ].

(** The first lines of the blocks of fixed lines in the list that is
    built. *)
Lemma fixed_headers_built (plan : string) :
  (In "Index Scan detected. This is generally efficient, but consider:"
      (recommendations_of plan)
   <-> Str.contains "Index Scan" plan = true)
  /\ (In "Index Only Scan detected. This is optimal as it avoids accessing the heap."
         (recommendations_of plan)
      <-> Str.contains "Index Only Scan" plan = true)
  /\ (In "Bitmap Heap Scan detected. While better than sequential scan, consider:"
         (recommendations_of plan)
      <-> Str.contains "Bitmap Heap Scan" plan = true)
  /\ (In "Merge Join detected. This is efficient for sorted data, but consider:"
         (recommendations_of plan)
      <-> Str.contains "Merge Join" plan = true)
  /\ (In "Sort operation detected. Consider:" (recommendations_of plan)
      <-> Str.contains "Sort" plan = true)
  /\ (In "Aggregate operation detected. Consider:" (recommendations_of plan)
      <-> Str.contains "Aggregate" plan = true)
  /\ (In "Materialization detected. Consider:" (recommendations_of plan)
      <-> Str.contains "Materialize" plan = true)
  /\ (In "No parallel operations detected. Consider:" (recommendations_of plan)
      <-> Str.contains "Parallel" plan = false).
Proof.
  repeat split; try fixed_header;
    intros H; apply in_analyze_query_plan_iff; rewrite H; simpl; tauto.
Qed.

(** X3: when no match that [int] is to convert has more than 4300 digits,
    the function returns a list in which a block of fixed lines is, with
    all its lines, exactly when the name of its operator occurs in the
    plan, and the no-parallel warning exactly when "Parallel" does not:
    an operator is detected by its name alone, and no block is set off
    by the name of another operator. *)
Theorem fixed_blocks_follow_operator_names (plan : string) :
  within_limit plan = true ->
  exists recs : list string,
    analyze_query_plan plan = Some recs
    /\ (incl index_scan_lines recs <-> Str.contains "Index Scan" plan = true)
    /\ (incl index_only_scan_lines recs
        <-> Str.contains "Index Only Scan" plan = true)
    /\ (incl bitmap_heap_scan_lines recs
        <-> Str.contains "Bitmap Heap Scan" plan = true)
    /\ (incl merge_join_lines recs <-> Str.contains "Merge Join" plan = true)
    /\ (incl sort_lines recs <-> Str.contains "Sort" plan = true)
    /\ (incl aggregate_lines recs <-> Str.contains "Aggregate" plan = true)
    /\ (incl materialize_lines recs <-> Str.contains "Materialize" plan = true)
    /\ (incl no_parallel_lines recs <-> Str.contains "Parallel" plan = false).
Proof.
  intros Hlimit. exists (recommendations_of plan).
  split; [now apply analyze_query_plan_within|].
  destruct (fixed_headers_built plan)
    as (H1 & H2 & H3 & H4 & H5 & H6 & H7 & H8).
  repeat split;
    try (intros Hc x Hx; apply in_analyze_query_plan_iff; rewrite Hc; tauto);
    intros Hincl;
    [ apply H1 | apply H2 | apply H3 | apply H4
    | apply H5 | apply H6 | apply H7 | apply H8 ];
    apply Hincl; now left.
Qed.

Lemma fixed_blocks_follow_operator_names_witness :
  exists recs : list string,
    analyze_query_plan "Sort  ->  Index Only Scan using i on t" = Some recs
    /\ (incl index_scan_lines recs
        <-> Str.contains "Index Scan" "Sort  ->  Index Only Scan using i on t"
            = true)
    /\ (incl index_only_scan_lines recs
        <-> Str.contains "Index Only Scan"
              "Sort  ->  Index Only Scan using i on t" = true)
    /\ (incl bitmap_heap_scan_lines recs
        <-> Str.contains "Bitmap Heap Scan"
              "Sort  ->  Index Only Scan using i on t" = true)
    /\ (incl merge_join_lines recs
        <-> Str.contains "Merge Join" "Sort  ->  Index Only Scan using i on t"
            = true)
    /\ (incl sort_lines recs
        <-> Str.contains "Sort" "Sort  ->  Index Only Scan using i on t" = true)
    /\ (incl aggregate_lines recs
        <-> Str.contains "Aggregate" "Sort  ->  Index Only Scan using i on t"
            = true)
    /\ (incl materialize_lines recs
        <-> Str.contains "Materialize" "Sort  ->  Index Only Scan using i on t"
            = true)
    /\ (incl no_parallel_lines recs
        <-> Str.contains "Parallel" "Sort  ->  Index Only Scan using i on t"
            = false).
Proof.
  exact (fixed_blocks_follow_operator_names
           "Sort  ->  Index Only Scan using i on t" eq_refl).
Defined.

(** ** More on the list: the tables of sequential scans *)

Lemma take_while_prefix (cls : ascii -> bool) (s : string) :
  exists rest : string, s = Str.take_while cls s +:+ rest.
Proof.
  induction s as [|c s [rest IH]]; simpl; [now exists ""|].
  destruct (cls c); simpl.
  - exists rest. now rewrite <- IH.
  - now exists (String c s).
Qed.

Lemma all_class_take_while (cls : ascii -> bool) (s : string) :
  all_class cls (Str.take_while cls s) = true.
Proof.
  induction s as [|c s IH]; simpl; [reflexivity|].
  destruct (cls c) eqn:E; simpl; [now rewrite E|reflexivity].
Qed.

(** What [findall] extracts: every group is a non-empty run of the class
    that stands in the text right after the literal. *)
Lemma findall_from_sound (lit : string) (cls : ascii -> bool) (s : string) :
  forall (k : nat) (x : string),
    In x (Str.findall_from lit cls s k) ->
    x <> "" /\ all_class cls x = true /\ Str.contains (lit +:+ x) s = true.
Proof.
  induction s as [|c s IH]; intros k x; cbn [Str.findall_from]; [intros []|].
  destruct k as [|k].
  - destruct (Str.match_lit_class lit cls (String c s)) as [cap|] eqn:E.
    + intros [<-|H].
      * destruct (match_lit_class_inv _ _ _ _ E) as (rest & Es & Hcap & Hne).
        split; [exact Hne|]. split; [rewrite Hcap; apply all_class_take_while|].
        destruct (take_while_prefix cls rest) as [rest' Hrest].
        rewrite Es, Hrest, <- Hcap, <- append_assoc.
        apply contains_startswith, startswith_append.
      * destruct (IH _ _ H) as (? & ? & Hc). repeat split; try assumption.
        now apply contains_tail.
    + intros H. destruct (IH _ _ H) as (? & ? & Hc).
      repeat split; try assumption. now apply contains_tail.
  - intros H. destruct (IH _ _ H) as (? & ? & Hc).
    repeat split; try assumption. now apply contains_tail.
Qed.

Lemma append_inv_tail (a b s : string) : a +:+ s = b +:+ s -> a = b.
Proof.
  revert b; induction a as [|x a IH]; intros [|y b] H; simpl in H.
  - reflexivity.
  - apply (f_equal String.length) in H. simpl in H.
    rewrite length_append in H. lia.
  - apply (f_equal String.length) in H. simpl in H.
    rewrite length_append in H. lia.
  - injection H as -> H. now rewrite (IH _ H).
Qed.

Lemma seq_scan_header_inj (t t' : string) :
  "Consider adding an index to table '" +:+ t +:+ "' to avoid sequential scans."
  = "Consider adding an index to table '" +:+ t' +:+ "' to avoid sequential scans." ->
  t = t'.
Proof.
  intros H. apply (String.app_inj _) in H. now apply append_inv_tail in H.
Qed.

Lemma count_occ_seq_scan_lines (t t' : string) :
  count_occ string_dec (seq_scan_lines t')
    ("Consider adding an index to table '" +:+ t +:+ "' to avoid sequential scans.")
  = if string_dec t' t then 1 else 0.
Proof.
  unfold seq_scan_lines. cbn [count_occ].
  repeat match goal with
         | |- context [string_dec (String "-" ?a) ?b] =>
             destruct (string_dec (String "-" a) b) as [E|_]; [discriminate E|]
         end.
  destruct (string_dec _ _) as [E|Hne]; destruct (string_dec t' t) as [E'|Hne'];
    try reflexivity.
  - apply seq_scan_header_inj in E. contradiction.
  - subst. contradiction.
Qed.

Lemma count_occ_seq_scan_block (t : string) (tables : list string) :
  count_occ string_dec (flat_map seq_scan_lines tables)
    ("Consider adding an index to table '" +:+ t +:+ "' to avoid sequential scans.")
  = count_occ string_dec tables t.
Proof.
  induction tables as [|t' tables IH]; [reflexivity|].
  cbn [flat_map]. rewrite count_occ_app, IH, count_occ_seq_scan_lines.
  cbn [count_occ]. now destruct (string_dec t' t).
Qed.

Lemma seq_scan_tables_sound (plan t : string) :
  In t (seq_scan_tables plan) ->
  t <> "" /\ all_class Str.is_word t = true
  /\ Str.contains ("Seq Scan on " +:+ t) plan = true.
Proof. apply findall_from_sound. Qed.

Lemma seq_scan_tables_operator (plan t : string) :
  In t (seq_scan_tables plan) -> Str.contains "Seq Scan" plan = true.
Proof.
  intros H. apply seq_scan_tables_sound in H as (_ & _ & H).
  apply contains_split in H as (pre & post & ->).
  change (("Seq Scan on " +:+ t) +:+ post)
    with ("Seq Scan" +:+ " on " +:+ t +:+ post).
  apply contains_occurrence.
Qed.

Lemma count_occ_when_zero (b : bool) (l : list string) (x : string) :
  ~ In x l -> count_occ string_dec (when b l) x = 0.
Proof.
  intros H. apply count_occ_not_In. rewrite in_when. tauto.
Qed.

(** The suggestions for a table in the list that is built. *)
Lemma seq_scan_count_built (plan t : string) :
  count_occ string_dec (recommendations_of plan)
    ("Consider adding an index to table '" +:+ t +:+ "' to avoid sequential scans.")
  = count_occ string_dec (seq_scan_tables plan) t.
Proof.
  set (x := "Consider adding an index to table '" +:+ t
            +:+ "' to avoid sequential scans.").
  assert (Hx : first_char x = Some "C"%char) by reflexivity.
  assert (Hfixed : forall (b : bool) (l : list string),
             existsb (String.eqb "C")
               (map (fun y => match y with String c _ => String c "" | _ => "" end) l)
             = false ->
             count_occ string_dec (when b l) x = 0).
  { intros b l Hl. apply count_occ_when_zero. intros Hin.
    apply Bool.not_true_iff_false in Hl. apply Hl.
    apply existsb_exists. exists "C". split; [|reflexivity].
    apply in_map_iff. exists x. now split. }
  assert (Hhash : count_occ string_dec
            (when (Str.contains "Hash Join" plan) (hash_join_warning plan)) x = 0).
  { apply count_occ_when_zero. intros H.
    apply in_hash_join_block in H as (k & _ & _ & H).
    apply in_hash_join_lines in H. head_clash. }
  assert (Hnested : count_occ string_dec
            (when (Str.contains "Nested Loop" plan) (nested_loop_block plan)) x = 0).
  { apply count_occ_when_zero. intros H.
    apply in_nested_loop_block in H as [_ H].
    apply in_nested_loop_lines in H. head_clash. }
  assert (Hrows : count_occ string_dec (rows_removed_warning plan) x = 0).
  { apply count_occ_not_In. intros H.
    apply in_rows_removed_block in H as (k & _ & _ & H).
    apply in_rows_removed_lines in H. head_clash. }
  rewrite analyze_query_plan_blocks, !count_occ_app.
  rewrite Hhash, Hnested, Hrows.
  rewrite (Hfixed _ index_scan_lines), (Hfixed _ index_only_scan_lines),
    (Hfixed _ bitmap_heap_scan_lines), (Hfixed _ merge_join_lines),
    (Hfixed _ sort_lines), (Hfixed _ aggregate_lines),
    (Hfixed _ materialize_lines), (Hfixed _ no_parallel_lines)
    by reflexivity.
  rewrite !Nat.add_0_r.
  destruct (Str.contains "Seq Scan" plan) eqn:E; cbn [when].
  - apply count_occ_seq_scan_block.
  - symmetry. apply count_occ_not_In. intros H.
    apply seq_scan_tables_operator in H. congruence.
Qed.

(** X4: when no match that [int] is to convert has more than 4300 digits,
    the function returns a list in which the suggestion for a table is as
    many times as [Seq Scan on (\w+)] extracts that table from the plan:
    once for each sequential scan found, a table that is scanned twice
    being named twice. *)
Theorem seq_scan_suggestion_per_match (plan : string) :
  within_limit plan = true ->
  exists recs : list string,
    analyze_query_plan plan = Some recs
    /\ forall t : string,
         count_occ string_dec recs
           ("Consider adding an index to table '" +:+ t
            +:+ "' to avoid sequential scans.")
         = count_occ string_dec (seq_scan_tables plan) t.
Proof.
  intros Hlimit. exists (recommendations_of plan).
  split; [now apply analyze_query_plan_within|].
  intros t. apply seq_scan_count_built.
Qed.

Lemma seq_scan_suggestion_per_match_witness :
  exists recs : list string,
    analyze_query_plan "Seq Scan on a  Seq Scan on b  Seq Scan on a" = Some recs
    /\ forall t : string,
         count_occ string_dec recs
           ("Consider adding an index to table '" +:+ t
            +:+ "' to avoid sequential scans.")
         = count_occ string_dec
             (seq_scan_tables "Seq Scan on a  Seq Scan on b  Seq Scan on a") t.
Proof.
  exact (seq_scan_suggestion_per_match
           "Seq Scan on a  Seq Scan on b  Seq Scan on a" eq_refl).
Defined.

(** X5: every table that a suggestion in a list that the function returns
    names stands in the plan right after "Seq Scan on ", and its name is a
    non-empty run of word characters. *)
Theorem seq_scan_suggestion_names_scanned_table (plan t : string)
  (recs : list string) :
  analyze_query_plan plan = Some recs ->
  In ("Consider adding an index to table '" +:+ t +:+ "' to avoid sequential scans.")
     recs ->
  Str.contains ("Seq Scan on " +:+ t) plan = true
  /\ t <> "" /\ all_class Str.is_word t = true.
Proof.
  intros Hrecs H. apply analyze_query_plan_Some in Hrecs as [_ ->].
  apply (count_occ_In string_dec) in H.
  rewrite seq_scan_count_built in H.
  apply (count_occ_In string_dec) in H.
  apply seq_scan_tables_sound in H. tauto.
Qed.

Lemma seq_scan_suggestion_names_scanned_table_witness :
  Str.contains ("Seq Scan on " +:+ "orders") "->  Seq Scan on orders  (cost=0.00..1.00)"
  = true
  /\ "orders" <> "" /\ all_class Str.is_word "orders" = true.
Proof.
  apply (seq_scan_suggestion_names_scanned_table
           "->  Seq Scan on orders  (cost=0.00..1.00)" "orders"
           (recommendations_of "->  Seq Scan on orders  (cost=0.00..1.00)")).
  - apply analyze_query_plan_within. reflexivity.
  - vm_compute. tauto.
Defined.

(** ** More on the list: counts above the thresholds *)

Lemma no_occurrence_append (sub a b : string) (k : nat) :
  no_occurrence sub (String.length a) (a +:+ b) = true ->
  no_occurrence sub k b = true ->
  no_occurrence sub (String.length a + k) (a +:+ b) = true.
Proof.
  induction a as [|c a IH]; [intros _ H; exact H|].
  cbn [String.length Nat.add]. simpl String.append.
  cbn [no_occurrence]. intros H Hb.
  apply andb_prop in H as [-> H]. simpl. auto.
Qed.

Lemma no_occurrence_take_while (c0 : ascii) (lit' : string)
  (cls : ascii -> bool) (s : string) :
  cls c0 = false ->
  no_occurrence (String c0 lit') (String.length (Str.take_while cls s)) s = true.
Proof.
  intros H0. induction s as [|c s IH]; [reflexivity|].
  cbn [Str.take_while]. destruct (cls c) eqn:Hc; [|reflexivity].
  cbn [String.length no_occurrence]. rewrite IH, Bool.andb_true_r.
  unfold Str.startswith. cbn [Str.drop_prefix].
  destruct (Ascii.eqb_spec c0 c) as [->|_]; [congruence | reflexivity].
Qed.

(** A pattern [lit(\c+)] whose literal starts with a character outside
    the class and cannot overlap itself: [findall] misses no place at
    which the pattern matches. *)
Lemma findall_from_complete (c0 : ascii) (lit' : string) (cls : ascii -> bool) :
  cls c0 = false ->
  (forall rest : string,
     no_occurrence (String c0 lit') (String.length lit') (lit' +:+ rest) = true) ->
  forall (pre : string) (k : nat) (s cap : string),
    no_occurrence (String c0 lit') k (pre +:+ s) = true ->
    Str.match_lit_class (String c0 lit') cls s = Some cap ->
    In cap (Str.findall_from (String c0 lit') cls (pre +:+ s) k).
Proof.
  intros Hcls Hlit. induction pre as [|c pre IH]; intros k s cap Hfree Hm.
  - simpl String.append in *.
    destruct (match_lit_class_inv _ _ _ _ Hm) as (rest & -> & _ & _).
    simpl String.append in *. destruct k as [|k].
    + now apply findall_from_match.
    + cbn [no_occurrence] in Hfree.
      change (String c0 (lit' +:+ rest)) with (String c0 lit' +:+ rest) in Hfree.
      now rewrite startswith_append in Hfree.
  - simpl String.append in *. destruct k as [|k]; cbn [Str.findall_from].
    + destruct (Str.match_lit_class (String c0 lit') cls
                  (String c (pre +:+ s))) as [cap'|] eqn:E.
      * right. apply IH; [|exact Hm].
        destruct (match_lit_class_inv _ _ _ _ E) as (rest & Es & -> & _).
        simpl in Es. injection Es as _ Es. rewrite Es.
        cbn [String.length Nat.add Nat.sub]. rewrite Nat.sub_0_r.
        apply no_occurrence_append; [apply Hlit|].
        now apply no_occurrence_take_while.
      * now apply IH.
    + cbn [no_occurrence] in Hfree. apply andb_prop in Hfree as [_ Hfree].
      now apply IH.
Qed.

Lemma match_digits_after (lit d post : string) :
  d <> "" -> all_class Str.is_digit d = true ->
  exists cap : string,
    Str.match_lit_class lit Str.is_digit (lit +:+ d +:+ post) = Some cap
    /\ (Str.value d <= Str.value cap)%N.
Proof.
  intros Hne Hd. exists (d +:+ Str.take_while Str.is_digit post). split.
  - unfold Str.match_lit_class.
    rewrite drop_prefix_append, take_while_append by exact Hd.
    destruct d; [congruence | reflexivity].
  - unfold Str.value. rewrite int_acc_append. apply int_acc_ge.
Qed.

Lemma count_found (c0 : ascii) (lit' : string) (plan d : string) :
  Str.is_digit c0 = false ->
  (forall rest : string,
     no_occurrence (String c0 lit') (String.length lit') (lit' +:+ rest) = true) ->
  d <> "" -> all_class Str.is_digit d = true ->
  Str.contains (String c0 lit' +:+ d) plan = true ->
  exists n : N,
    greatest (Str.findall (String c0 lit') Str.is_digit plan) = Some n
    /\ (Str.value d <= n)%N.
Proof.
  intros Hc0 Hlit Hne Hd H.
  apply contains_split in H as (pre & post & ->).
  rewrite append_assoc.
  destruct (match_digits_after (String c0 lit') d post Hne Hd) as (cap & Hm & Hle).
  pose proof (findall_from_complete c0 lit' Str.is_digit Hc0 Hlit pre 0 _ cap
                eq_refl Hm) as Hin.
  unfold Str.findall.
  destruct (Str.findall_from _ _ _ 0) as [|m ms]; [destruct Hin|].
  exists (Str.max_value m ms). split; [reflexivity|].
  pose proof (max_int_ge cap m ms Hin). lia.
Qed.

(** The warnings in the list that is built. *)
Lemma large_bucket_count_built (plan d : string) :
  Str.contains "Hash Join" plan = true ->
  d <> "" -> all_class Str.is_digit d = true ->
  Str.contains ("buckets=" +:+ d) plan = true ->
  (100000 < Str.value d)%N ->
  exists n : N,
    (Str.value d <= n)%N /\ In (hash_join_header n) (recommendations_of plan).
Proof.
  intros Hj Hne Hd Hc Hlt.
  destruct (count_found "b" "uckets=" plan d) as (n & Hn & Hle);
    try assumption; try reflexivity.
  exists n. split; [exact Hle|].
  apply (proj1 (warnings_above_thresholds plan)); [exact Hj | exact Hn | lia].
Qed.

Lemma high_rows_removed_built (plan d : string) :
  d <> "" -> all_class Str.is_digit d = true ->
  Str.contains ("Rows Removed by Filter: " +:+ d) plan = true ->
  (10000 < Str.value d)%N ->
  exists n : N,
    (Str.value d <= n)%N /\ In (rows_removed_header n) (recommendations_of plan).
Proof.
  intros Hne Hd Hc Hlt.
  destruct (count_found "R" "ows Removed by Filter: " plan d) as (n & Hn & Hle);
    try assumption; try reflexivity.
  exists n. split; [exact Hle|].
  apply (proj1 (proj2 (warnings_above_thresholds plan))); [exact Hn | lia].
Qed.

(** X6: when no match that [int] is to convert has more than 4300 digits,
    a bucket count above 100000 anywhere in a plan that contains
    "Hash Join" sets off the large-hash-join warning: the function returns
    a list with the warning, and the count the warning states is at least
    that count. *)
Theorem large_bucket_count_warned (plan d : string) :
  Str.contains "Hash Join" plan = true ->
  d <> "" -> all_class Str.is_digit d = true ->
  Str.contains ("buckets=" +:+ d) plan = true ->
  (100000 < Str.value d)%N ->
  within_limit plan = true ->
  exists (recs : list string) (n : N),
    analyze_query_plan plan = Some recs
    /\ (Str.value d <= n)%N /\ In (hash_join_header n) recs.
Proof.
  intros Hj Hne Hd Hc Hlt Hlimit.
  destruct (large_bucket_count_built plan d Hj Hne Hd Hc Hlt) as (n & Hle & Hin).
  exists (recommendations_of plan), n.
  split; [now apply analyze_query_plan_within | now split].
Qed.

Lemma large_bucket_count_warned_witness :
  exists (recs : list string) (n : N),
    analyze_query_plan
      "Hash Join  (cost=1.00..2.00)  Buckets: 1024  buckets=262144 x"
    = Some recs
    /\ (Str.value "262144" <= n)%N /\ In (hash_join_header n) recs.
Proof.
  apply (large_bucket_count_warned
           "Hash Join  (cost=1.00..2.00)  Buckets: 1024  buckets=262144 x"
           "262144");
    [reflexivity | discriminate | reflexivity | reflexivity | reflexivity
    | reflexivity].
Defined.

(** X7: when no match that [int] is to convert has more than 4300 digits,
    a count of rows removed by a filter above 10000 anywhere in the plan
    sets off the rows-removed warning, whatever operators the plan names:
    the function returns a list with the warning, and the count the
    warning states is at least that count. *)
Theorem high_rows_removed_warned (plan d : string) :
  d <> "" -> all_class Str.is_digit d = true ->
  Str.contains ("Rows Removed by Filter: " +:+ d) plan = true ->
  (10000 < Str.value d)%N ->
  within_limit plan = true ->
  exists (recs : list string) (n : N),
    analyze_query_plan plan = Some recs
    /\ (Str.value d <= n)%N /\ In (rows_removed_header n) recs.
Proof.
  intros Hne Hd Hc Hlt Hlimit.
  destruct (high_rows_removed_built plan d Hne Hd Hc Hlt) as (n & Hle & Hin).
  exists (recommendations_of plan), n.
  split; [now apply analyze_query_plan_within | now split].
Qed.

Lemma high_rows_removed_warned_witness :
  exists (recs : list string) (n : N),
    analyze_query_plan "Seq Scan on t  Rows Removed by Filter: 250000"
    = Some recs
    /\ (Str.value "250000" <= n)%N /\ In (rows_removed_header n) recs.
Proof.
  apply (high_rows_removed_warned
           "Seq Scan on t  Rows Removed by Filter: 250000" "250000");
    [discriminate | reflexivity | reflexivity | reflexivity | reflexivity].
Defined.

(** ** The page: headers and the lines under them *)

Lemma cards_app (a b : list string) : cards a -> cards b -> cards (a ++ b).
Proof.
  induction 1 as [|k rest Hk Hrest IH]; intros Hb; [exact Hb|].
  cbn [app]. rewrite <- app_assoc. constructor; auto.
Qed.

Lemma css_class_subs (subs : list string) :
  forallb Template.is_sub subs = true ->
  map Template.css_class subs = repeat "sub-recommendation" (length subs).
Proof.
  induction subs as [|x subs IH]; [reflexivity|].
  cbn [forallb map length repeat]. intros H. apply andb_prop in H as [Hx H].
  unfold Template.css_class at 1. now rewrite Hx, IH.
Qed.

(** A header with the lines under it makes a card. *)
Lemma cards_block (h : string) (subs : list string) :
  Template.is_sub h = false -> forallb Template.is_sub subs = true ->
  2 <= length subs ->
  cards (map Template.css_class (h :: subs)).
Proof.
  intros Hh Hsubs Hlen. cbn [map]. unfold Template.css_class at 1.
  rewrite Hh, (css_class_subs _ Hsubs), <- (app_nil_r (repeat _ _)).
  constructor; [exact Hlen | constructor].
Qed.

Lemma cards_when (b : bool) (l : list string) :
  cards (map Template.css_class l) ->
  cards (map Template.css_class (when b l)).
Proof. destruct b; [auto | constructor]. Qed.

Lemma nested_loop_header_not_sub (n : N) :
  Template.is_sub (nested_loop_header n) = false.
Proof.
  destruct (str_head n) as (c & r & E & Hc).
  unfold nested_loop_header, Template.is_sub, Str.startswith. rewrite E.
  simpl String.append. cbn [Str.drop_prefix].
  destruct (Ascii.eqb_spec "-" c) as [<-|_]; [discriminate Hc | reflexivity].
Qed.

Lemma cards_analyze_query_plan (plan : string) :
  cards (map Template.css_class (recommendations_of plan)).
Proof.
  rewrite analyze_query_plan_blocks, !map_app.
  repeat apply cards_app;
    try (apply cards_when; apply cards_block; (reflexivity || (simpl; lia))).
  - apply cards_when.
    induction (seq_scan_tables plan) as [|t tables IH]; [constructor|].
    cbn [flat_map]. rewrite map_app. apply cards_app; [|exact IH].
    apply cards_block; [reflexivity | reflexivity | simpl; lia].
  - apply cards_when. unfold hash_join_warning.
    destruct (bucket_matches plan) as [|m ms]; [constructor|].
    apply cards_when.
    apply cards_block; [reflexivity | reflexivity | simpl; lia].
  - apply cards_when, cards_when.
    apply cards_block;
      [apply nested_loop_header_not_sub | reflexivity | simpl; lia].
  - unfold rows_removed_warning.
    destruct (filter_matches plan) as [|m ms]; [constructor|].
    apply cards_when.
    apply cards_block; [reflexivity | reflexivity | simpl; lia].
Qed.

Lemma cards_analyze_query (query : string) :
  cards (map Template.css_class (analyze_query query)).
Proof.
  unfold analyze_query. cbn [app].
  generalize (Str.contains "SELECT *" query), (Str.contains "JOIN" query),
    (Str.contains "ON" query), (Str.contains "WHERE" query),
    (Str.contains "GROUP BY" query), (Str.contains "ORDER BY" query),
    (Str.contains "LIMIT" query), (Str.contains "DISTINCT" query).
  intros [] [] [] [] [] [] [] [];
    (apply cards_block; [reflexivity | reflexivity | simpl; lia]).
Qed.

(** X8: the page of a request is made of cards. Every line that the
    template puts in a [div] of class [recommendation] is followed by two
    or more lines of class [sub-recommendation], and a line of that class
    never comes first: no line is shown indented under nothing. *)
Theorem page_is_made_of_cards (r : Web.request) (page : Web.page) :
  Web.index r = inr page ->
  cards (map fst (Template.render (Web.recommendations page))).
Proof.
  intros H. unfold Template.render. rewrite map_map. cbn [fst].
  destruct (Web.req_method r) eqn:Hm.
  - unfold Web.index, Web.index_in in H. rewrite Hm in H.
    injection H as <-. constructor.
  - destruct (Web.form r !! "query_plan") as [plan|] eqn:Hp.
    + destruct (Web.form r !! "query") as [q|] eqn:Hq.
      * unfold Web.index in H.
        rewrite (index_in_post Web.module_globals r plan q Hm Hp Hq eq_refl eq_refl)
          in H.
        destruct (analyze_query_plan plan) as [recs|] eqn:E; [|discriminate H].
        apply analyze_query_plan_Some in E as [_ ->].
        injection H as <-. cbn [Web.recommendations].
        rewrite map_app. apply cards_app;
          [apply cards_analyze_query_plan
          | apply cards_when, cards_analyze_query].
      * unfold Web.index, Web.index_in, Web.form_get in H.
        rewrite Hm, Hp, Hq in H. discriminate H.
    + unfold Web.index, Web.index_in, Web.form_get in H.
      rewrite Hm, Hp in H. discriminate H.
Qed.

Lemma page_is_made_of_cards_witness :
  exists page : Web.page,
    Web.index (Web.post "Sort  Nested Loop  Parallel" "SELECT 1") = inr page
    /\ cards (map fst (Template.render (Web.recommendations page))).
Proof.
  assert (H : Web.index (Web.post "Sort  Nested Loop  Parallel" "SELECT 1")
              = inr (Web.mkPage
                       (recommendations_of "Sort  Nested Loop  Parallel"
                        ++ when (Web.nonempty "SELECT 1")
                             (analyze_query "SELECT 1"))
                       "Sort  Nested Loop  Parallel" "SELECT 1")).
  { unfold Web.index.
    rewrite (index_in_post Web.module_globals
               (Web.post "Sort  Nested Loop  Parallel" "SELECT 1")
               "Sort  Nested Loop  Parallel" "SELECT 1"
               eq_refl eq_refl eq_refl eq_refl eq_refl).
    now rewrite analyze_query_plan_within by reflexivity. }
  eexists. split; [exact H|].
  exact (page_is_made_of_cards _ _ H).
Defined.

(** ** The tree of [parse_query_plan] *)

Lemma nearest_below_Some (L : nat) (levels : list nat) (j i : nat) :
  nearest_below L levels j = Some i ->
  i < j /\ exists l : nat, levels !! i = Some l /\ l < L.
Proof.
  induction j as [|j IH]; simpl; [discriminate|].
  destruct (levels !! j) as [l|] eqn:E.
  - destruct (Nat.ltb_spec l L) as [Hlt|Hge].
    + intros [= <-]. split; [lia | eauto].
    + intros H. destruct (IH H) as [? ?]. split; [lia | assumption].
  - intros H. destruct (IH H) as [? ?]. split; [lia | assumption].
Qed.

Lemma nearest_below_app (L : nat) (levels more : list nat) (j : nat) :
  j <= length levels ->
  nearest_below L (levels ++ more) j = nearest_below L levels j.
Proof.
  induction j as [|j IH]; intros Hj; simpl; [reflexivity|].
  rewrite lookup_app_l by lia. rewrite IH by lia. reflexivity.
Qed.

Lemma nearest_below_mono (L L' : nat) (levels : list nat) (j : nat) :
  L <= L' ->
  match nearest_below L' levels j with
  | Some p => nearest_below L levels j = nearest_below L levels (S p)
  | None => nearest_below L levels j = None
  end.
Proof.
  intros HL. induction j as [|j IH]; simpl; [reflexivity|].
  destruct (levels !! j) as [l|] eqn:E.
  - destruct (Nat.ltb_spec l L') as [Hlt|Hge].
    + simpl. now rewrite E.
    + destruct (Nat.ltb_spec l L) as [Hlt'|_]; [lia|]. exact IH.
  - exact IH.
Qed.

Lemma parent_of_lt (levels : list nat) (j i : nat) :
  parent_of levels j = Some i -> i < j /\ j < length levels.
Proof.
  unfold parent_of. destruct (levels !! j) as [L|] eqn:E; [|discriminate].
  intros H. apply nearest_below_Some in H as [? _].
  split; [assumption | now apply lookup_lt_Some in E].
Qed.

Lemma parent_of_app (levels more : list nat) (j : nat) :
  j < length levels -> parent_of (levels ++ more) j = parent_of levels j.
Proof.
  intros Hj. unfold parent_of. rewrite lookup_app_l by lia.
  destruct (levels !! j); [|reflexivity].
  apply nearest_below_app. lia.
Qed.

Lemma parent_of_last (levels : list nat) (L : nat) :
  parent_of (levels ++ [L]) (length levels)
  = nearest_below L levels (length levels).
Proof.
  unfold parent_of. rewrite list_lookup_middle by reflexivity.
  now apply nearest_below_app.
Qed.

Lemma filter_seq_last (f g : nat -> bool) (n : nat) :
  (forall j : nat, j < n -> f j = g j) ->
  List.filter f (seq 0 (n + 1))
  = List.filter g (seq 0 n) ++ (if f n then [n] else []).
Proof.
  intros H. rewrite seq_app, List.filter_app. cbn [seq List.filter].
  f_equal. apply List.filter_ext_in. intros j Hj.
  apply in_seq in Hj. apply H. lia.
Qed.

Lemma children_of_last (levels : list nat) (L i : nat) :
  children_of (levels ++ [L]) i
  = children_of levels i
    ++ (if is_child (levels ++ [L]) i (length levels)
        then [length levels] else []).
Proof.
  unfold children_of. rewrite length_app. cbn [length].
  apply filter_seq_last. intros j Hj. unfold is_child.
  now rewrite parent_of_app.
Qed.

Lemma top_lines_last (levels : list nat) (L : nat) :
  top_lines (levels ++ [L])
  = top_lines levels
    ++ (if is_top (levels ++ [L]) (length levels)
        then [length levels] else []).
Proof.
  unfold top_lines. rewrite length_app. cbn [length].
  apply filter_seq_last. intros j Hj. unfold is_top.
  now rewrite parent_of_app.
Qed.

Lemma children_of_bounds (levels : list nat) (i j : nat) :
  In j (children_of levels i) -> i < j /\ j < length levels.
Proof.
  unfold children_of. intros H. apply List.filter_In in H as [_ H].
  unfold is_child in H. destruct (parent_of levels j) as [p|] eqn:E;
    [|discriminate].
  apply Nat.eqb_eq in H as ->. now apply parent_of_lt.
Qed.

Lemma children_of_none (levels : list nat) (i : nat) :
  length levels <= S i -> children_of levels i = [].
Proof.
  intros H. destruct (children_of levels i) as [|j l] eqn:E; [reflexivity|].
  assert (Hj : In j (children_of levels i)) by (rewrite E; now left).
  apply children_of_bounds in Hj. lia.
Qed.

Lemma linked_app (levels more : list nat) (stack : list (nat * nat)) :
  linked levels stack -> linked (levels ++ more) stack.
Proof.
  induction stack as [|[l a] rest IH]; [trivial|].
  cbn [linked]. intros (Ha & Hp & Hrest).
  pose proof (lookup_lt_Some _ _ _ Ha) as Hlt.
  rewrite lookup_app_l, parent_of_app by lia. auto.
Qed.

Lemma linked_pop (levels : list nat) (L : nat) (stack : list (nat * nat)) :
  linked levels stack -> linked levels (Parser.pop_levels L stack).
Proof.
  induction stack as [|[l a] rest IH]; [trivial|].
  intros H. cbn [Parser.pop_levels].
  destruct (L <=? l)%nat; [|exact H].
  apply IH. now destruct H as (_ & _ & H).
Qed.

(** After the pops the top of the stack is the nearest line above with a
    smaller level. *)
Lemma pop_levels_nearest (levels : list nat) (L : nat)
  (stack : list (nat * nat)) :
  linked levels stack ->
  snd <$> head (Parser.pop_levels L stack)
  = match stack with
    | [] => None
    | (_, a) :: _ => nearest_below L levels (S a)
    end.
Proof.
  induction stack as [|[l a] rest IH]; [reflexivity|].
  intros (Ha & Hp & Hrest). cbn [Parser.pop_levels nearest_below].
  rewrite Ha. destruct (Nat.leb_spec L l) as [Hle|Hlt].
  - destruct (Nat.ltb_spec l L) as [Hlt|_]; [lia|].
    rewrite (IH Hrest). unfold parent_of in Hp. rewrite Ha in Hp.
    pose proof (nearest_below_mono L l levels a Hle) as Hm.
    rewrite Hp in Hm. destruct rest as [|[l' a'] rest']; simpl in *; congruence.
  - destruct (Nat.ltb_spec l L) as [_|Hge]; [reflexivity | lia].
Qed.

Lemma expected_store_lookup (lines : list string) (i : nat) :
  expected_store lines !! i
  = (fun line => (Parser.strip line, children_of (map indent lines) i))
      <$> lines !! i.
Proof. unfold expected_store. apply list_lookup_imap. Qed.

Lemma length_expected_store (lines : list string) :
  length (expected_store lines) = length lines.
Proof. unfold expected_store. apply length_imap. Qed.

Lemma step_tracks (lines : list string) (st : Parser.state) (line : string) :
  parser_tracks lines st ->
  parser_tracks (lines ++ [line]) (Parser.step st line).
Proof.
  intros (Hstore & Hlinked & Htop & Hroot).
  set (levels := map indent lines) in *.
  assert (Hlen : length levels = length lines) by apply length_map.
  assert (Hnear : snd <$> head (Parser.pop_levels (indent line) (Parser.stack st))
                  = nearest_below (indent line) levels (length lines)).
  { rewrite (pop_levels_nearest levels) by exact Hlinked.
    destruct (Parser.stack st) as [|[l a] rest]; simpl in Htop.
    - destruct lines; [reflexivity | discriminate].
    - destruct lines as [|x lines']; [discriminate|].
      injection Htop as ->. cbn [length]. now rewrite Nat.sub_0_r. }
  assert (Hparent : parent_of (levels ++ [indent line]) (length lines)
                    = snd <$> head (Parser.pop_levels (indent line) (Parser.stack st))).
  { now rewrite Hnear, <- Hlen, parent_of_last. }
  pose proof (linked_pop levels (indent line) _ Hlinked) as Hlinked'.
  unfold Parser.step. fold (indent line).
  rewrite Hstore, length_expected_store.
  unfold parser_tracks. rewrite map_app. cbn [map]. fold levels.
  assert (Hstore' :
            forall parent : option nat,
              parent_of (levels ++ [indent line]) (length lines) = parent ->
              match parent with
              | Some p =>
                  alter (fun e => (e.1, e.2 ++ [length lines])) p
                    (expected_store lines ++ [(Parser.strip line, [])])
              | None => expected_store lines ++ [(Parser.strip line, [])]
              end
              = expected_store (lines ++ [line])).
  { intros parent Hpar. apply list_eq. intros i.
    rewrite expected_store_lookup, map_app. cbn [map]. fold levels.
    rewrite children_of_last. unfold is_child. rewrite Hlen, Hpar.
    assert (Hbase :
              (expected_store lines ++ [(Parser.strip line, [])]) !! i
              = (fun l => (Parser.strip l, children_of levels i))
                  <$> (lines ++ [line]) !! i).
    { destruct (lt_eq_lt_dec i (length lines)) as [[Hi| ->]|Hi].
      - rewrite !lookup_app_l by (rewrite ?length_expected_store; lia).
        apply expected_store_lookup.
      - rewrite <- (length_expected_store lines) at 1.
        rewrite !list_lookup_middle by (rewrite ?length_expected_store; reflexivity).
        cbn. now rewrite children_of_none by lia.
      - rewrite !lookup_ge_None_2;
          [reflexivity | | ]; rewrite length_app, ?length_expected_store;
          simpl; lia. }
    destruct parent as [p|].
    - destruct (decide (i = p)) as [->|Hne].
      + rewrite list_lookup_alter_eq, Hbase, Nat.eqb_refl.
        destruct ((lines ++ [line]) !! p); reflexivity.
      + rewrite list_lookup_alter_ne by congruence. rewrite Hbase.
        destruct (Nat.eqb_spec p i); [congruence|].
        now rewrite app_nil_r.
    - rewrite Hbase. now rewrite app_nil_r. }
  assert (Hlast : match lines ++ [line] with
                  | [] => None
                  | _ :: _ => Some (length (lines ++ [line]) - 1)
                  end = Some (length lines)).
  { destruct lines; cbn [app]; [reflexivity|].
    f_equal. cbn [length]. rewrite length_app. simpl. lia. }
  assert (Hroot' :
            forall parent : option nat,
              parent_of (levels ++ [indent line]) (length lines) = parent ->
              last (top_lines (levels ++ [indent line]))
              = match parent with
                | Some _ => Parser.root st
                | None => Some (length lines)
                end).
  { intros parent Hpar. rewrite top_lines_last. unfold is_top.
    rewrite Hlen, Hpar. destruct parent.
    - now rewrite app_nil_r.
    - apply last_snoc. }
  destruct (Parser.pop_levels (indent line) (Parser.stack st))
    as [|[l p] stack1] eqn:E; cbn [Parser.store Parser.stack Parser.root].
  - simpl in Hparent. split; [|split; [|split]].
    + exact (Hstore' None Hparent).
    + cbn [linked head fmap option_fmap option_map]. split; [|split; [|trivial]].
      * rewrite <- Hlen. now apply list_lookup_middle.
      * exact Hparent.
    + now rewrite Hlast.
    + now rewrite (Hroot' None Hparent).
  - simpl in Hparent. split; [|split; [|split]].
    + exact (Hstore' (Some p) Hparent).
    + refine (conj _ (conj Hparent (linked_app _ _ _ Hlinked'))).
      rewrite <- Hlen. now apply list_lookup_middle.
    + now rewrite Hlast.
    + now rewrite (Hroot' (Some p) Hparent).
Qed.

Lemma run_tracks (lines : list string) :
  parser_tracks lines (fold_left Parser.step lines (Parser.mkState [] [] None)).
Proof.
  induction lines as [|line lines IH] using rev_ind.
  - repeat split.
  - rewrite fold_left_app. cbn [fold_left]. now apply step_tracks.
Qed.

Lemma run_store (plan : string) :
  Parser.store (Parser.run plan) = expected_store (plan_lines plan).
Proof. now destruct (run_tracks (plan_lines plan)) as (H & _). Qed.

Lemma run_root (plan : string) :
  Parser.root (Parser.run plan)
  = last (top_lines (map indent (plan_lines plan))).
Proof. now destruct (run_tracks (plan_lines plan)) as (_ & _ & _ & H). Qed.

(** X9: the store the parser builds. The node of a line has the stripped
    text of the line as its name, and its children are, in their order,
    the later lines for which it is the nearest line above that is
    indented less. *)
Theorem parser_links_nearest_shallower_line (plan : string) (i : nat) :
  Parser.store (Parser.run plan) !! i
  = (fun line =>
       (Parser.strip line, children_of (map indent (plan_lines plan)) i))
      <$> plan_lines plan !! i.
Proof.
  destruct (run_tracks (plan_lines plan)) as (Hstore & _).
  unfold Parser.run. fold (plan_lines plan).
  rewrite Hstore. unfold expected_store. apply list_lookup_imap.
Qed.

Lemma read_Some (fuel : nat) (store : list (string * list nat)) (a : nat)
  (t : Parser.node) :
  Parser.read fuel store a = Some t ->
  exists (name : string) (children : list nat),
    store !! a = Some (name, children)
    /\ node_name t = name
    /\ exists fuel' : nat,
         mapM (Parser.read fuel' store) children = Some (node_children t).
Proof.
  destruct fuel as [|fuel]; [discriminate|]. simpl.
  destruct (store !! a) as [[name children]|]; [|discriminate].
  destruct (mapM (Parser.read fuel store) children) as [cs|] eqn:E;
    [|discriminate].
  intros [= <-]. exists name, children. simpl. eauto.
Qed.

Lemma read_children_names (fuel : nat) (store : list (string * list nat))
  (children : list nat) (cs : list Parser.node) :
  mapM (Parser.read fuel store) children = Some cs ->
  Some (map node_name cs) = mapM (fun k => fst <$> store !! k) children.
Proof.
  intros H. apply mapM_Some in H. symmetry. apply mapM_Some.
  induction H as [|k c children cs Hk _ IH]; [constructor|].
  cbn [map]. constructor; [|exact IH].
  apply read_Some in Hk as (name & kids & -> & <- & _). reflexivity.
Qed.

Lemma expected_children_names (lines : list string) (i : nat) :
  mapM (fun k => fst <$> expected_store lines !! k)
    (children_of (map indent lines) i)
  = Some (map (fun k => Parser.strip (lines !!! k))
            (children_of (map indent lines) i)).
Proof.
  apply mapM_Some. apply Forall2_fmap_r, Forall_Forall2_diag.
  apply Forall_forall. intros k Hk. apply list_elem_of_In in Hk.
  apply children_of_bounds in Hk as [_ Hk]. rewrite length_map in Hk.
  rewrite expected_store_lookup.
  destruct (lookup_lt_is_Some_2 lines k Hk) as [line E].
  unfold compose. now rewrite (list_lookup_total_correct _ _ _ E), E.
Qed.

(** X10: what [parse_query_plan] returns. The root is the node of the last
    line that has no line indented less above it, and the children of the
    root are, in their order, the lines for which that line is the nearest
    line above that is indented less. *)
Theorem parse_query_plan_root (plan : string) :
  exists (r : nat) (t : Parser.node),
    last (top_lines (map indent (plan_lines plan))) = Some r
    /\ parse_query_plan plan = Some t
    /\ node_name t = Parser.strip (plan_lines plan !!! r)
    /\ map node_name (node_children t)
       = map (fun k => Parser.strip (plan_lines plan !!! k))
           (children_of (map indent (plan_lines plan)) r).
Proof.
  destruct (parse_query_plan_total plan) as [t Ht].
  pose proof Ht as Ht'. unfold parse_query_plan in Ht'.
  rewrite run_root, run_store in Ht'.
  destruct (last (top_lines (map indent (plan_lines plan)))) as [r|];
    [|discriminate].
  exists r, t. split; [reflexivity|]. split; [exact Ht|].
  apply read_Some in Ht' as (name & children & Hr & Hname & fuel' & Hcs).
  rewrite expected_store_lookup in Hr.
  destruct (plan_lines plan !! r) as [line|] eqn:E; [|discriminate].
  injection Hr as <- <-. split.
  - now rewrite (list_lookup_total_correct _ _ _ E).
  - apply read_children_names in Hcs.
    rewrite expected_children_names in Hcs. now injection Hcs.
Qed.

(** The root that is returned and the name it has. *)
Lemma parse_root_name (plan : string) :
  exists (r : nat) (t : Parser.node),
    last (top_lines (map indent (plan_lines plan))) = Some r
    /\ parse_query_plan plan = Some t
    /\ node_name t = Parser.strip (plan_lines plan !!! r).
Proof.
  destruct (parse_query_plan_total plan) as [t Ht].
  pose proof Ht as Ht'. unfold parse_query_plan in Ht'.
  rewrite run_root, run_store in Ht'.
  destruct (last (top_lines (map indent (plan_lines plan)))) as [r|];
    [|discriminate].
  exists r, t. split; [reflexivity|]. split; [exact Ht|].
  apply read_Some in Ht' as (name & children & Hr & Hname & _).
  rewrite expected_store_lookup in Hr.
  destruct (plan_lines plan !! r) as [line|] eqn:E; [|discriminate].
  injection Hr as <- _.
  now rewrite (list_lookup_total_correct _ _ _ E).
Qed.

(** The first line of a stripped plan is not indented. *)
Lemma lstrip_head (s : string) :
  Parser.lstrip s = "" \/
  exists (c : ascii) (s' : string),
    Parser.lstrip s = String c s' /\ Str.is_space c = false.
Proof.
  unfold Parser.lstrip. induction s as [|c s IH]; [now left|].
  cbn [Str.drop_while]. destruct (Str.is_space c) eqn:E; [exact IH|].
  right. eauto.
Qed.

Lemma rstrip_head (c : ascii) (s : string) :
  Str.is_space c = false ->
  exists r : string, Parser.rstrip (String c s) = String c r.
Proof.
  intros Hc. cbn [Parser.rstrip]. rewrite Hc.
  destruct (Parser.rstrip s); eauto.
Qed.

Lemma split_lines_head (c : ascii) (s : string) :
  Str.is_space c = false ->
  exists (l : string) (ls : list string),
    Parser.split_lines (String c s) = String c l :: ls.
Proof.
  intros Hc. cbn [Parser.split_lines].
  destruct (Ascii.eqb_spec c "010") as [->|_]; [discriminate Hc|].
  destruct (Parser.split_lines s); eauto.
Qed.

Lemma plan_lines_first (plan : string) :
  exists (l : string) (ls : list string),
    plan_lines plan = l :: ls /\ indent l = 0.
Proof.
  unfold plan_lines, Parser.strip.
  destruct (lstrip_head plan) as [->|(c & s' & -> & Hc)].
  - exists "", []. split; reflexivity.
  - destruct (rstrip_head c s' Hc) as [r ->].
    destruct (split_lines_head c r Hc) as (l & ls & ->).
    exists (String c l), ls. split; [reflexivity|].
    unfold indent, Parser.lstrip. cbn [Str.drop_while]. rewrite Hc. lia.
Qed.

Lemma nearest_below_zero (levels : list nat) (j : nat) :
  nearest_below 0 levels j = None.
Proof.
  induction j as [|j IH]; simpl; [reflexivity|].
  now destruct (levels !! j).
Qed.

Lemma nearest_below_first (L : nat) (levels : list nat) (j : nat) :
  levels !! 0 = Some 0 -> 0 < L -> 0 < j ->
  is_Some (nearest_below L levels j).
Proof.
  intros H0 HL. induction j as [|j IH]; [lia|]. intros _. simpl.
  destruct j as [|j].
  - rewrite H0. destruct (Nat.ltb_spec 0 L) as [_|Hge]; [eauto | lia].
  - destruct (levels !! S j) as [l|]; [|apply IH; lia].
    destruct (l <? L)%nat; [eauto | apply IH; lia].
Qed.

Lemma is_top_unindented (levels : list nat) (j l : nat) :
  levels !! 0 = Some 0 -> levels !! j = Some l ->
  is_top levels j = (l =? 0)%nat.
Proof.
  intros H0 Hj. unfold is_top, parent_of. rewrite Hj.
  destruct l as [|l].
  - now rewrite nearest_below_zero.
  - destruct j as [|j]; [congruence|].
    destruct (nearest_below_first (S l) levels (S j) H0) as [p ->];
      [lia | lia | reflexivity].
Qed.

Lemma last_filter_indices (P : string -> bool) (lines : list string) :
  last (List.filter P lines)
  = last (List.filter
            (fun j => match lines !! j with Some x => P x | None => false end)
            (seq 0 (length lines)))
    ≫= fun j => lines !! j.
Proof.
  induction lines as [|x lines IH] using rev_ind; [reflexivity|].
  rewrite List.filter_app, length_app. cbn [length List.filter].
  rewrite (filter_seq_last _
             (fun j => match lines !! j with Some y => P y | None => false end))
    by (intros j Hj; now rewrite lookup_app_l).
  rewrite list_lookup_middle by reflexivity.
  destruct (P x).
  - rewrite !last_snoc. simpl. now rewrite list_lookup_middle.
  - rewrite !app_nil_r, IH.
    destruct (last (List.filter _ (seq 0 (length lines)))) as [j|] eqn:E;
      [|reflexivity].
    apply last_Some in E as [l' E].
    assert (Hj : In j (List.filter
                         (fun j => match lines !! j with
                                   | Some y => P y | None => false end)
                         (seq 0 (length lines)))).
    { rewrite E. apply in_or_app. right. now left. }
    apply List.filter_In in Hj as [Hj _]. apply in_seq in Hj.
    simpl. now rewrite lookup_app_l by lia.
Qed.

(** X11: when several lines of the plan are not indented, the root of the
    tree that [parse_query_plan] returns is the last of them: its name is
    the stripped text of the last line without indentation. *)
Theorem root_is_last_unindented_line (plan : string) :
  exists (line : string) (t : Parser.node),
    last (List.filter (fun l => (indent l =? 0)%nat) (plan_lines plan))
    = Some line
    /\ parse_query_plan plan = Some t
    /\ node_name t = Parser.strip line.
Proof.
  destruct (parse_root_name plan) as (r & t & Hr & Ht & Hname).
  destruct (plan_lines_first plan) as (l0 & ls & El & Hl0).
  assert (H0 : map indent (plan_lines plan) !! 0 = Some 0).
  { rewrite El. simpl. now rewrite Hl0. }
  assert (Hin : In r (top_lines (map indent (plan_lines plan)))).
  { apply last_Some in Hr as [l' ->]. apply in_or_app. right. now left. }
  apply List.filter_In in Hin as [Hin _]. apply in_seq in Hin.
  rewrite length_map in Hin.
  destruct (lookup_lt_is_Some_2 (plan_lines plan) r) as [line Eline]; [lia|].
  exists line, t. split; [|split; [exact Ht|]].
  - rewrite last_filter_indices.
    assert (Hsame :
              List.filter
                (fun j => match plan_lines plan !! j with
                          | Some x => (indent x =? 0)%nat | None => false end)
                (seq 0 (length (plan_lines plan)))
              = top_lines (map indent (plan_lines plan))).
    { unfold top_lines. rewrite length_map. apply List.filter_ext_in.
      intros j Hj. apply in_seq in Hj.
      destruct (lookup_lt_is_Some_2 (plan_lines plan) j) as [x Ex]; [lia|].
      rewrite Ex. symmetry. apply is_top_unindented; [exact H0|].
      now rewrite list_lookup_fmap, Ex. }
    rewrite Hsame, Hr. simpl. exact Eline.
  - now rewrite Hname, (list_lookup_total_correct _ _ _ Eline).
Qed.

(** ** Pages without recommendations *)



(** ** When no list is returned *)






